(** * lmdo: the Lambda deployment helper ([lmdo/cmds/lm/lambda.py])

    A shallow embedding of class [Lambda] and the properties of its
    deploy ([process]) and destroy ([delete]) passes.

    The class talks to collaborators that live outside the module: the
    SDK client for the Lambda service, the [S3] and [IAM] helpers, the
    [zipper] utility, the local file system and the [Oprint] console
    printer.  Every such interaction is recorded as an [event]; the
    answers of the collaborators come from a [world], a function of the
    interaction history, so that a statement quantified over all worlds
    covers every behaviour of the collaborators.

    Two conventions of the embedding:
    - the guards written [if !x:] in the source are read as [if not x:];
    - exceptions are the subclasses of [Exception]; an unbound local
      variable is an [option] that is read through [read_local].

    Of [pip_install], the dependency installer that [create] and
    [update] run before [process], only the first evaluation step is
    embedded; what follows it talks to [os], [pip] and [spinner] and is
    left open.  [get_arn] takes the region and the account id, which
    [AWSBase] supplies, as arguments. *)

From Stdlib Require Import String Ascii List ZArith Bool Lia.
From Stdlib Require Import DecimalString.
Import ListNotations.
Local Open Scope list_scope.
Local Open Scope string_scope.
Set Warnings "-register-all".

(** ** Python values *)

Module Py.

(** The objects that flow through the module: configuration entries,
    keyword arguments, SDK responses.  Dictionaries keep their
    insertion order and have string keys. *)
Inductive value : Type :=
| VNone
| VBool (b : bool)
| VInt (z : Z)
| VStr (s : string)
| VList (l : list value)
| VDict (d : list (string * value))
| VMethod (name : string).

Definition dict : Type := list (string * value).

(** Exceptions, all subclasses of [Exception]. *)
Inductive exn : Type :=
| UnboundLocalError (var : string)
| AttributeError (type_name attr : string)
| TypeError (msg : string)
| OSError (msg : string)
| IOError (msg : string)
| ClientError (msg : string)
| OtherError (name msg : string).

Inductive outcome (A : Type) : Type :=
| Ok (a : A)
| Raise (e : exn).
Arguments Ok {A} a.
Arguments Raise {A} e.

(** [bool(v)] *)
Definition truthy (v : value) : bool :=
  match v with
  | VNone => false
  | VBool b => b
  | VInt z => negb (z =? 0)%Z
  | VStr s => negb (s =? "")
  | VList l => match l with [] => false | _ => true end
  | VDict d => match d with [] => false | _ => true end
  | VMethod _ => true
  end.

(** [a or b] on already evaluated operands *)
Definition py_or (a b : value) : value := if truthy a then a else b.

Definition type_name (v : value) : string :=
  match v with
  | VNone => "NoneType"
  | VBool _ => "bool"
  | VInt _ => "int"
  | VStr _ => "str"
  | VList _ => "list"
  | VDict _ => "dict"
  | VMethod _ => "instancemethod"
  end.

(** Dictionaries *)
Fixpoint dict_lookup (k : string) (d : dict) : option value :=
  match d with
  | [] => None
  | (k', v) :: d' => if k' =? k then Some v else dict_lookup k d'
  end.

(** [d.get(k)] *)
Definition dict_get (k : string) (d : dict) : value :=
  match dict_lookup k d with Some v => v | None => VNone end.

(** [d[k] = v] *)
Fixpoint dict_set (k : string) (v : value) (d : dict) : dict :=
  match d with
  | [] => [(k, v)]
  | (k', v') :: d' =>
      if k' =? k then (k', v) :: d' else (k', v') :: dict_set k v d'
  end.

Definition dict_keys (d : dict) : list string := map fst d.

(** [v.get(k)]: only dictionaries have the method. *)
Definition method_get (v : value) (k : string) : outcome value :=
  match v with
  | VDict d => Ok (dict_get k d)
  | _ => Raise (AttributeError (type_name v) "get")
  end.

Fixpoint chars (s : string) : list value :=
  match s with
  | EmptyString => []
  | String c s' => VStr (String c EmptyString) :: chars s'
  end.

(** [iter(v)], as a [for] statement consumes it. *)
Definition py_iter (v : value) : outcome (list value) :=
  match v with
  | VList l => Ok l
  | VDict d => Ok (map VStr (dict_keys d))
  | VStr s => Ok (chars s)
  | _ => Raise (TypeError ("'" ++ type_name v ++ "' object is not iterable"))
  end.

Section Str.
(** [str(o)] of a container or of a bound method depends on the
    interpreter (a bound method prints its address); it is kept
    abstract. *)
Variable repr_object : value -> string.

(** [str(v)], as [str.format] renders an argument for [{}]. *)
Definition py_str (v : value) : string :=
  match v with
  | VNone => "None"
  | VBool true => "True"
  | VBool false => "False"
  | VInt z => NilZero.string_of_int (Z.to_int z)
  | VStr s => s
  | _ => repr_object v
  end.
End Str.

(** [tpl.format(a1, ..., an)] for templates whose only fields are [{}]:
    each field takes the next argument.  Every template of the module
    is applied to exactly as many arguments as it has fields; a field
    left without argument (an [IndexError] in Python) is kept as it
    is. *)
Fixpoint format (tpl : string) (args : list string) : string :=
  match tpl with
  | EmptyString => EmptyString
  | String c rest =>
      if (c =? "{")%char then
        match rest with
        | String c' rest' =>
            if (c' =? "}")%char then
              match args with
              | a :: args' => a ++ format rest' args'
              | [] => String c (String c' (format rest' []))
              end
            else String c (format rest args)
        | EmptyString => String c EmptyString
        end
      else String c (format rest args)
  end.

End Py.
Import Py.

(** ** Names *)

Section Names.
(** [self.get_name_id()], inherited from [AWSBase]: the project id. *)
Variable name_id : string.
Variable repr_object : value -> string.

Let str := py_str repr_object.

Definition get_function_name (func_name : value) : string :=
  format "{}-{}" [name_id; str func_name].

Definition get_role_name (func_name : value) : string :=
  format "lmdo-{}-{}" [name_id; str func_name].

Definition get_zip_name (func_name : value) : string :=
  format "{}-{}.zip" [name_id; str func_name].

Definition get_statement_id (func_name principal_id : value) : string :=
  format "stmt-{}-{}" [get_function_name func_name; str principal_id].
End Names.

(** ** Collaborators, events and the execution monad *)

(** The operations of the SDK client for the Lambda service
    ([self._client.<op>(...)]). *)
Inductive sdk_op : Type :=
| AddPermission
| RemovePermission
| CreateFunction
| DeleteFunction
| Invoke
| ListFunctions
| UpdateFunctionCode
| GetFunction.

(** A call that leaves the module. *)
Inductive call : Type :=
| ClientCall (op : sdk_op) (kwargs : dict)
    (* self._client.op( **kwargs ) *)
| S3UploadFile (bucket key file_path : value)
    (* self._s3.upload_file(bucket, key, file_path) *)
| IamCreateRole (role_name policy : value)
    (* self._iam.create_role(role_name, policy) *)
| IamDeleteRole (role : value)
    (* self._iam.delete_role(role) *)
| Zipper (from_path target : string) (exclude : value)
    (* zipper(from_path, target, exclude) *)
| OsRemove (target : string)
    (* os.remove(target) *)
| ReadFile (path : value).
    (* open(path, 'r') followed by read() *)

Inductive level : Type := Info | Err | Warn.

Inductive payload : Type :=
| Msg (s : string)
| Exc (e : exn).

(** What an observer of a run sees, in order: each outside call with its
    answer, and each line given to [Oprint]. *)
Inductive event : Type :=
| Called (c : call) (o : outcome value)
| Printed (l : level) (p : payload) (tag : string).

(** The collaborators: the answer to a call, given all that happened
    before it. *)
Definition world : Type := list event -> call -> outcome value.

(** A computation reads the history so far and gives its outcome and the
    events it added. *)
Definition M (A : Type) : Type := list event -> outcome A * list event.

Definition ret {A} (a : A) : M A := fun _ => (Ok a, []).

Definition raise {A} (e : exn) : M A := fun _ => (Raise e, []).

Definition lift {A} (o : outcome A) : M A := fun _ => (o, []).

Definition bind {A B} (m : M A) (f : A -> M B) : M B :=
  fun h =>
    match m h with
    | (Ok a, t) => let (r, t') := f a (h ++ t)%list in (r, (t ++ t')%list)
    | (Raise e, t) => (Raise e, t)
    end.

Declare Scope py_scope.
Delimit Scope py_scope with py.
Notation "x <- m ;; k" := (bind m (fun x => k))
  (at level 61, m at next level, right associativity) : py_scope.
Notation "m ;; k" := (bind m (fun _ => k))
  (at level 61, right associativity) : py_scope.
Local Open Scope py_scope.

(** [try: m  except <caught>: handler] *)
Definition try_except {A} (m : M A) (caught : exn -> bool)
    (handler : exn -> M A) : M A :=
  fun h =>
    match m h with
    | (Ok a, t) => (Ok a, t)
    | (Raise e, t) =>
        if caught e
        then let (r, t') := handler e (h ++ t)%list in (r, (t ++ t')%list)
        else (Raise e, t)
    end.

(** Reading a local variable that an earlier [try] block may have left
    unassigned. *)
Definition read_local {A} (var : string) (x : option A) : M A :=
  match x with
  | Some a => ret a
  | None => raise (UnboundLocalError var)
  end.

Definition is_OSError (e : exn) : bool :=
  match e with OSError _ => true | _ => false end.

Definition is_none (v : value) : bool :=
  match v with VNone => true | _ => false end.

(** [for x in l: body x]: an exception ends the loop. *)
Fixpoint for_each {A} (body : A -> M unit) (l : list A) : M unit :=
  match l with
  | [] => ret tt
  | x :: l' => body x ;; for_each body l'
  end.

(** Keyword arguments of a call [f(k1=v1, ..., **kwargs)]: a key given
    twice is a [TypeError]. *)
Definition call_kwargs (explicit kwargs : dict) : outcome dict :=
  if existsb (fun k => existsb (String.eqb k) (dict_keys explicit))
             (dict_keys kwargs)
  then Raise (TypeError "got multiple values for keyword argument")
  else Ok (explicit ++ kwargs)%list.

Definition dict_remove (k : string) (d : dict) : dict :=
  filter (fun kv => negb (fst kv =? k)) d.

(** Binding the keyword arguments [kw] to the named parameters [names]
    of a [def]: each parameter takes the entry of its own name, and what
    is left goes to the [**kwargs] of the [def]. *)
Fixpoint bind_params (names : list string) (kw : dict)
  : option (list value * dict) :=
  match names with
  | [] => Some ([], kw)
  | n :: names' =>
      match dict_lookup n kw with
      | None => None
      | Some v =>
          match bind_params names' (dict_remove n kw) with
          | None => None
          | Some (vs, rest) => Some (v :: vs, rest)
          end
      end
  end.

(** The constants the module imports from [lmdo.config] and the state
    it inherits from [AWSBase]. *)
Record settings : Type := {
  name_id : string;             (* self.get_name_id() *)
  _config : dict;               (* self._config *)
  TMP_DIR : string;
  LAMBDA_MEMORY_SIZE : value;
  LAMBDA_RUNTIME : value;
  LAMBDA_TIMEOUT : value;
  LAMBDA_EXCLUDE : value;
  repr_object : value -> string (* str() of containers and methods *)
}.

(** ** Class [Lambda] *)

Section Lambda.
Variable S : settings.
Variable W : world.

Let str := py_str (repr_object S).
Let function_name := get_function_name (name_id S) (repr_object S).
Let role_name := get_role_name (name_id S) (repr_object S).
Let zip_name := get_zip_name (name_id S) (repr_object S).
Let statement_id := get_statement_id (name_id S) (repr_object S).

(** An outside call: the world answers, the exchange is recorded. *)
Definition ask (c : call) : M value :=
  fun h => let o := W h c in (o, [Called c o]).

Definition Oprint_info (msg : string) (tag : string) : M unit :=
  fun _ => (Ok tt, [Printed Info (Msg msg) tag]).

Definition Oprint_err (p : payload) (tag : string) : M unit :=
  fun _ => (Ok tt, [Printed Err p tag]).

(** [self._client.op(k1=v1, ..., **kwargs)] *)
Definition client (op : sdk_op) (explicit kwargs : dict) : M value :=
  kw <- lift (call_kwargs explicit kwargs) ;;
  ask (ClientCall op kw).

(** The block shared by the wrappers:
    [try: response = ...  except Exception as e: Oprint.err(e, 'lambda')].
    The result is the state of the local [response] after the block. *)
Definition try_response (body : M value) : M (option value) :=
  try_except (r <- body ;; ret (Some r)) (fun _ => true)
             (fun e => Oprint_err (Exc e) "lambda" ;; ret None).

Definition add_permission (func_name principal principal_id action : value)
  : M value :=
  response <- try_response (
    r <- client AddPermission
           [("FunctionName", VStr (function_name func_name));
            ("StatementId", VStr (statement_id func_name principal_id));
            ("Action", action);
            ("Principal", principal)] [] ;;
    Oprint_info
      (format "Permission {} has been added for {} with principal {}"
              [str action; function_name func_name; str principal])
      "lambda" ;;
    ret r) ;;
  r <- read_local "response" response ;;
  st <- lift (method_get r "Statement") ;;
  (if is_none st
   then Oprint_err
          (Msg (format "Create lambda permission {} for {}"
                       [str action; str principal])) "lambda"
   else ret tt) ;;
  ret r.

Definition remove_permission (func_name principal_id : value) : M value :=
  response <- try_response (
    r <- client RemovePermission
           [("FunctionName", func_name);
            ("StatementId", VStr (statement_id func_name principal_id))] [] ;;
    Oprint_info
      (format "Permission has been removed for {}"
              [function_name func_name]) "lambda" ;;
    ret r) ;;
  read_local "response" response.

Definition create_function (func_name role handler code runtime : value)
    (kwargs : dict) : M value :=
  response <- try_response (
    r <- client CreateFunction
           [("FunctionName", VStr (function_name func_name));
            ("Runtime", runtime);
            ("Role", role);
            ("Handler", handler);
            ("Code", code)] kwargs ;;
    Oprint_info
      (format "Lambda function {} has been created"
              [function_name func_name]) "lambda" ;;
    ret r) ;;
  read_local "response" response.

Definition delete_function (func_name : value) (kwargs : dict) : M value :=
  response <- try_response (
    r <- client DeleteFunction
           [("FunctionName", VStr (function_name func_name))] kwargs ;;
    Oprint_info
      (format "Lambda function {} has been deleted"
              [function_name func_name]) "lambda" ;;
    ret r) ;;
  read_local "response" response.

Definition invoke (func_name : value) (kwargs : dict) : M value :=
  response <- try_response (
    client Invoke [("FunctionName", VStr (function_name func_name))]
           kwargs) ;;
  read_local "response" response.

Definition list_functions (kwargs : dict) : M value :=
  response <- try_response (client ListFunctions [] kwargs) ;;
  read_local "response" response.

Definition update_function_code (func_name bucket_name : value) : M value :=
  response <- try_response (
    r <- client UpdateFunctionCode
           [("FunctionName", VStr (function_name func_name));
            ("S3Bucket", bucket_name);
            ("S3Key", VStr (zip_name func_name))] [] ;;
    Oprint_info
      (format "Lambda function {} has been updated" [str func_name])
      "lambda" ;;
    ret r) ;;
  read_local "response" response.

Definition get_function (func_name : value) (kwargs : dict) : M value :=
  response <- try_response (
    client GetFunction [("FunctionName", func_name)] kwargs) ;;
  r <- read_local "response" response ;;
  c <- lift (method_get r "Configuration") ;;
  ret (if truthy c then r else VBool false).

Definition zip_function (func_name : value) : M value :=
  let target := TMP_DIR S ++ zip_name func_name in
  z <- ask (Zipper "./" target (LAMBDA_EXCLUDE S)) ;;
  if truthy z then ret (VStr target) else ret (VBool false).

Definition remove_zip (func_name : value) : M unit :=
  try_except
    (let target := TMP_DIR S ++ zip_name func_name in
     ask (OsRemove target) ;; ret tt)
    is_OSError
    (fun _ => ret tt).

Definition create_role (role_name policy_path : value) : M value :=
  policy <- ask (ReadFile policy_path) ;;
  role <- ask (IamCreateRole role_name policy) ;;
  r <- lift (method_get role "Role") ;;
  lift (method_get r "RoleName").

Definition delete_role (role : value) : M unit :=
  ask (IamDeleteRole role) ;; ret tt.

(** [self.create_function( **params )]: the entries of [params] are
    bound by name to the parameters of [create_function]. *)
Definition create_function_from (params : dict) : M value :=
  match bind_params ["func_name"; "role"; "handler"; "code"; "runtime"]
                    params with
  | Some ([func_name; role; handler; code; runtime], kwargs) =>
      create_function func_name role handler code runtime kwargs
  | _ => raise (TypeError "create_function() takes at least 6 arguments")
  end.

(** [lm.get(k)] on an entry of the configured list *)
Definition lm_get (lm : value) (k : string) : M value :=
  lift (method_get lm k).

(** The body of the loop of [process]: the deploy of one spec. *)
Definition process_one (lm : value) : M unit :=
  fn <- lm_get lm "FunctionName" ;;
  bucket <- lm_get lm "S3Bucket" ;;
  handler <- lm_get lm "Handler" ;;
  memory <- lm_get lm "MemorySize" ;;
  runtime <- lm_get lm "Runtime" ;;
  timeout <- lm_get lm "Timeout" ;;
  let params : dict :=
    [("FunctionName", VStr (function_name fn));
     ("S3Bucket", bucket);
     ("Handler", handler);
     ("MemorySize", py_or memory (LAMBDA_MEMORY_SIZE S));
     ("Runtime", py_or runtime (LAMBDA_RUNTIME S));
     ("Timeout", py_or timeout (LAMBDA_TIMEOUT S));
     ("Description",
      VStr (format "Function deployed for service {} by lmdo"
                   [str (dict_get "Service" (_config S))]))] in
  vpc <- lm_get lm "VpcConfig" ;;
  let params :=
    if truthy vpc then dict_set "VpcConfig" vpc params else params in
  env <- lm_get lm "EnvironmentVariables" ;;
  let params :=
    if truthy env
    then dict_set "Environment" (VDict [("Variables", env)]) params
    else params in
  (* Clean up before create a new one *)
  remove_zip fn ;;
  file_path <- zip_function fn ;;
  uploaded <- (if truthy file_path
               then ask (S3UploadFile bucket (VMethod "get_zip_name")
                                      file_path)
               else ret file_path) ;;
  (if truthy uploaded then
     (* If function exists *)
     found <- get_function fn [] ;;
     if truthy found then
       update_function_code fn bucket ;; ret tt
     else
       configured <- lm_get lm "Role" ;;
       role <- (if truthy configured then ret configured
                else
                  doc <- lm_get lm "RolePolicyDocument" ;;
                  create_role (VStr (role_name fn)) doc) ;;
       let params := dict_set "Role" role params in
       create_function_from params ;; ret tt
   else ret tt) ;;
  (* Clean up *)
  remove_zip fn.

Definition process : M value :=
  let lambdas := dict_get "Lambda" (_config S) in
  if negb (truthy lambdas) then
    Oprint_info "No Lambda function configured, skip..." "lambda" ;;
    ret (VBool true)
  else
    specs <- lift (py_iter lambdas) ;;
    for_each process_one specs ;;
    ret VNone.

(** The body of the loop of [delete]: the destroy of one spec. *)
Definition delete_one (lm : value) : M unit :=
  (* Get function info before being deleted *)
  fn <- lm_get lm "FunctionName" ;;
  info <- get_function fn [] ;;
  delete_function fn [] ;;
  (* Delete role if it's created by lmdo *)
  configured <- lm_get lm "Role" ;;
  if negb (truthy configured) then
    conf <- lift (method_get info "Configuration") ;;
    role <- lift (method_get conf "Role") ;;
    delete_role role
  else ret tt.

Definition delete : M value :=
  let lambdas := dict_get "Lambda" (_config S) in
  if negb (truthy lambdas) then
    Oprint_info "No Lambda function configured, skip" "lambda" ;;
    ret (VBool true)
  else
    specs <- lift (py_iter lambdas) ;;
    for_each delete_one specs ;;
    ret VNone.

End Lambda.

(** ** Concrete settings and worlds, for runs on explicit inputs *)

Module Demo.

(** A spec that names its role. *)
Definition hello_with_role : value :=
  VDict [("FunctionName", VStr "hello");
         ("S3Bucket", VStr "artifacts");
         ("Handler", VStr "handler.main");
         ("Role", VStr "arn:aws:iam::1:role/given")].

(** A spec whose role is to be created from a policy document. *)
Definition hello_no_role : value :=
  VDict [("FunctionName", VStr "hello");
         ("S3Bucket", VStr "artifacts");
         ("Handler", VStr "handler.main");
         ("RolePolicyDocument", VStr "policy.json")].

Definition settings_of (config : dict) : settings :=
  {| name_id := "demo";
     _config := config;
     TMP_DIR := "/tmp/lmdo/";
     LAMBDA_MEMORY_SIZE := VInt 128;
     LAMBDA_RUNTIME := VStr "python2.7";
     LAMBDA_TIMEOUT := VInt 180;
     LAMBDA_EXCLUDE := VList [];
     repr_object := fun _ => "<object>" |}.

Definition project (specs : list value) : settings :=
  settings_of [("Service", VStr "svc"); ("Lambda", VList specs)].

(** The functions present in the remote service after a history: the
    initial ones, plus those created, minus those deleted. *)
Fixpoint deployed (initial : list string) (h : list event) : list string :=
  match h with
  | [] => initial
  | Called (ClientCall CreateFunction kw) (Ok _) :: h' =>
      match dict_get "FunctionName" kw with
      | VStr n => deployed (n :: initial) h'
      | _ => deployed initial h'
      end
  | Called (ClientCall DeleteFunction kw) (Ok _) :: h' =>
      match dict_get "FunctionName" kw with
      | VStr n => deployed (filter (fun m => negb (m =? n)) initial) h'
      | _ => deployed initial h'
      end
  | _ :: h' => deployed initial h'
  end.

Definition present (n : string) (l : list string) : bool :=
  existsb (String.eqb n) l.

Definition configuration (n : string) : value :=
  VDict [("Configuration",
          VDict [("FunctionName", VStr n);
                 ("Role", VStr ("arn:aws:iam::1:role/lmdo-" ++ n))])].

(** A simulated service that keeps the set of deployed functions.
    Packaging, upload, file and role operations succeed.  A lookup of
    a missing function answers [missing]: the SDK raises there, a
    stub may answer an empty response. *)
Definition service (initial : list string) (missing : outcome value)
  : world :=
  fun h c =>
    match c with
    | ClientCall op kw =>
        match dict_get "FunctionName" kw with
        | VStr n =>
            let here := present n (deployed initial h) in
            match op with
            | GetFunction => if here then Ok (configuration n) else missing
            | CreateFunction =>
                if here
                then Raise (ClientError "ResourceConflictException")
                else Ok (configuration n)
            | UpdateFunctionCode | DeleteFunction =>
                if here then Ok (configuration n)
                else Raise (ClientError "ResourceNotFoundException")
            | _ => Ok (VDict [])
            end
        | _ => Raise (ClientError "ValidationException")
        end
    | S3UploadFile _ _ _ => Ok (VBool true)
    | IamCreateRole n _ => Ok (VDict [("Role", VDict [("RoleName", n)])])
    | IamDeleteRole _ => Ok VNone
    | Zipper _ _ _ => Ok (VBool true)
    | OsRemove _ => Ok VNone
    | ReadFile _ => Ok (VStr "{}")
    end.

Definition not_found : outcome value :=
  Raise (ClientError "ResourceNotFoundException").

Definition empty_response : outcome value := Ok (VDict []).

(** A world in which every SDK call fails. *)
Definition unreachable : world :=
  fun _ c =>
    match c with
    | ClientCall _ _ => Raise (ClientError "EndpointConnectionError")
    | _ => Ok (VBool true)
    end.


End Demo.

(** ** Observations on traces *)

Definition is_client (op : sdk_op) (ev : event) : bool :=
  match ev with
  | Called (ClientCall op' _) _ =>
      match op, op' with
      | AddPermission, AddPermission
      | RemovePermission, RemovePermission
      | CreateFunction, CreateFunction
      | DeleteFunction, DeleteFunction
      | Invoke, Invoke
      | ListFunctions, ListFunctions
      | UpdateFunctionCode, UpdateFunctionCode
      | GetFunction, GetFunction => true
      | _, _ => false
      end
  | _ => false
  end.

Definition is_upload (ev : event) : bool :=
  match ev with Called (S3UploadFile _ _ _) _ => true | _ => false end.

Definition is_create_role (ev : event) : bool :=
  match ev with Called (IamCreateRole _ _) _ => true | _ => false end.

Definition is_delete_role (ev : event) : bool :=
  match ev with Called (IamDeleteRole _) _ => true | _ => false end.

(** A call to a remote API: the Lambda service, object storage or the
    identity provider. *)
Definition is_remote (ev : event) : bool :=
  match ev with
  | Called (ClientCall _ _) _
  | Called (S3UploadFile _ _ _) _
  | Called (IamCreateRole _ _) _
  | Called (IamDeleteRole _) _ => true
  | _ => false
  end.

Definition client_calls (op : sdk_op) (t : list event) : list event :=
  filter (is_client op) t.

(** ** Runs and their postconditions

    [wp m h Q]: the run of [m] after the history [h] ends with an
    outcome and a trace that satisfy [Q]. *)

Definition wp {A} (m : M A) (h : list event)
    (Q : outcome A -> list event -> Prop) : Prop :=
  Q (fst (m h)) (snd (m h)).

(** The existence probe of a pass found the function: the SDK answered
    [get_function] with a response whose [Configuration] is truthy. *)
Definition found_response (resp : value) : bool :=
  match method_get resp "Configuration" with
  | Ok c => truthy c
  | Raise _ => false
  end.

Definition probe_found (t : list event) : bool :=
  existsb (fun ev =>
             match ev with
             | Called (ClientCall GetFunction _) (Ok resp) => found_response resp
             | _ => false
             end) t.

(** The probe answered the not-found signal [False]: the SDK gave a
    response whose [Configuration] is missing or falsy. *)
Definition absent_response (resp : value) : bool :=
  match method_get resp "Configuration" with
  | Ok c => negb (truthy c)
  | Raise _ => false
  end.

Definition probe_absent (t : list event) : bool :=
  existsb (fun ev =>
             match ev with
             | Called (ClientCall GetFunction _) (Ok resp) =>
                 absent_response resp
             | _ => false
             end) t.

(** The packaging step failed: [zipper] gave a falsy result, what
    [zip_function] turns into [False]. *)
Definition packaging_failed (t : list event) : bool :=
  existsb (fun ev =>
             match ev with
             | Called (Zipper _ _ _) (Ok z) => negb (truthy z)
             | _ => false
             end) t.

(** The keys under which a trace uploads to object storage. *)
Fixpoint upload_keys (t : list event) : list value :=
  match t with
  | [] => []
  | Called (S3UploadFile _ key _) _ :: t' => key :: upload_keys t'
  | _ :: t' => upload_keys t'
  end.

(** The function names a trace sends to the SDK for operation [op]. *)
Fixpoint sent_names (op : sdk_op) (t : list event) : list value :=
  match t with
  | [] => []
  | (Called (ClientCall _ kw) _ as ev) :: t' =>
      if is_client op ev
      then dict_get "FunctionName" kw :: sent_names op t'
      else sent_names op t'
  | _ :: t' => sent_names op t'
  end.

(** ** The remote-API wrappers, as one family *)

Inductive wrapper_call : Type :=
| Add_permission (func_name principal principal_id action : value)
| Remove_permission (func_name principal_id : value)
| Create_function (func_name role handler code runtime : value)
                  (kwargs : dict)
| Delete_function (func_name : value) (kwargs : dict)
| Invoke_function (func_name : value) (kwargs : dict)
| List_functions (kwargs : dict)
| Update_function_code (func_name bucket_name : value)
| Get_function (func_name : value) (kwargs : dict).

Definition run_wrapper (S : settings) (W : world) (w : wrapper_call)
  : M value :=
  match w with
  | Add_permission f p pid a => add_permission S W f p pid a
  | Remove_permission f pid => remove_permission S W f pid
  | Create_function f r hd c rt kw => create_function S W f r hd c rt kw
  | Delete_function f kw => delete_function S W f kw
  | Invoke_function f kw => invoke S W f kw
  | List_functions kw => list_functions W kw
  | Update_function_code f b => update_function_code S W f b
  | Get_function f kw => get_function W f kw
  end.

(** Two deploy passes in a row: the second starts from the history the
    first one left. *)
Definition process_twice (S : settings) (W : world)
  : (outcome value * list event) * (outcome value * list event) :=
  let first := process S W [] in
  (first, process S W (snd first)).

(** What [remove_zip] makes of the answer of [os.remove]: an [OSError]
    is swallowed, anything else passes. *)
Definition after_remove (o : outcome value) : outcome unit :=
  match o with
  | Ok _ => Ok tt
  | Raise e => if is_OSError e then Ok tt else Raise e
  end.


(** The key of an upload is the bound method [get_zip_name] itself. *)
Definition key_is_method (ev : event) : Prop :=
  match ev with
  | Called (S3UploadFile _ key _) _ => key = VMethod "get_zip_name"
  | _ => True
  end.

(** ** The resource name of a function *)

Section Arn.
(** [self.get_region()] and [self.get_account_id()], inherited from
    [AWSBase]. *)
Variable region account : value.
Variable name_id : string.
Variable repr_object : value -> string.

Definition get_arn (func_name : value) : string :=
  format "arn:aws:lambda:{}:{}:function:{}"
         [py_str repr_object region; py_str repr_object account;
          get_function_name name_id repr_object func_name].
End Arn.

(** ** The entry points [create] and [update] *)

(** The constants that the module binds by its import from
    [lmdo.config]. *)
Definition config_imports (S : settings) : dict :=
  [("TMP_DIR", VStr (TMP_DIR S));
   ("LAMBDA_MEMORY_SIZE", LAMBDA_MEMORY_SIZE S);
   ("LAMBDA_RUNTIME", LAMBDA_RUNTIME S);
   ("LAMBDA_TIMEOUT", LAMBDA_TIMEOUT S);
   ("LAMBDA_EXCLUDE", LAMBDA_EXCLUDE S)].

(** Reading a module-level constant by its name: a name that the module
    does not bind is a [NameError]. *)
Definition load_global (S : settings) (name : string) : M value :=
  match dict_lookup name (config_imports S) with
  | Some v => ret v
  | None =>
      raise (OtherError "NameError"
                        ("global name '" ++ name ++ "' is not defined"))
  end.

Section Entry.
Variable S : settings.
Variable W : world.

(** What [pip_install] goes on to do with the default name of the
    requirements file: the test for the file, the run of [pip] between
    the two moves of the spinner, and the notices.  These talk to [os],
    [pip] and [spinner] only; they are left open, so that what is proved
    of [pip_install] holds whatever they do. *)
Variable install_requirements : value -> M unit.

(** The first thing the condition of [pip_install] evaluates that is
    not an attribute of a module or a literal is the name
    [PIP_REQUIREMENTS_FILE], the default given to [os.getenv]. *)
Definition pip_install : M unit :=
  default <- load_global S "PIP_REQUIREMENTS_FILE" ;;
  install_requirements default.

Definition create : M value :=
  pip_install ;;
  process S W ;;
  ret VNone.

Definition update : M value :=
  create ;;
  ret VNone.

End Entry.

(** ** Further observations on traces *)

Definition is_called (ev : event) : bool :=
  match ev with Called _ _ => true | Printed _ _ _ => false end.

(** A call to the SDK client of the Lambda service. *)
Definition is_sdk (ev : event) : bool :=
  match ev with Called (ClientCall _ _) _ => true | _ => false end.

(** The values a trace sends to the SDK under the keyword [key] of
    operation [op]. *)
Fixpoint sent_args (key : string) (op : sdk_op) (t : list event)
  : list value :=
  match t with
  | [] => []
  | (Called (ClientCall _ kw) _ as ev) :: t' =>
      if is_client op ev
      then dict_get key kw :: sent_args key op t'
      else sent_args key op t'
  | _ :: t' => sent_args key op t'
  end.

(** The upload of the artifact failed: the uploader gave a falsy
    result. *)
Definition upload_failed (t : list event) : bool :=
  existsb (fun ev =>
             match ev with
             | Called (S3UploadFile _ _ _) (Ok u) => negb (truthy u)
             | _ => false
             end) t.

(** The steps a deploy pass may take: removal and packaging of the
    artifact, its upload, the probe, the code update, the reading of a
    policy document, the creation of a role, and lines on the console
    under the tag [lambda]. *)
Definition deploy_step (ev : event) : bool :=
  match ev with
  | Called (OsRemove _) _
  | Called (Zipper _ _ _) _
  | Called (S3UploadFile _ _ _) _
  | Called (ReadFile _) _
  | Called (IamCreateRole _ _) _
  | Called (ClientCall GetFunction _) _
  | Called (ClientCall UpdateFunctionCode _) _ => true
  | Called _ _ => false
  | Printed _ _ tag => tag =? "lambda"
  end.

(** The steps a destroy pass may take: the probe, the deletion of the
    function, the deletion of a role, and lines on the console under the
    tag [lambda]. *)
Definition destroy_step (ev : event) : bool :=
  match ev with
  | Called (ClientCall GetFunction _) _
  | Called (ClientCall DeleteFunction _) _
  | Called (IamDeleteRole _) _ => true
  | Called _ _ => false
  | Printed _ _ tag => tag =? "lambda"
  end.

(** The keywords each wrapper gives to the SDK itself, and the further
    keyword arguments it passes on. *)
Definition own_keywords (w : wrapper_call) : list string :=
  match w with
  | Add_permission _ _ _ _ =>
      ["FunctionName"; "StatementId"; "Action"; "Principal"]
  | Remove_permission _ _ => ["FunctionName"; "StatementId"]
  | Create_function _ _ _ _ _ _ =>
      ["FunctionName"; "Runtime"; "Role"; "Handler"; "Code"]
  | Delete_function _ _ | Invoke_function _ _ | Get_function _ _ =>
      ["FunctionName"]
  | List_functions _ => []
  | Update_function_code _ _ => ["FunctionName"; "S3Bucket"; "S3Key"]
  end.

Definition further_keywords (w : wrapper_call) : dict :=
  match w with
  | Create_function _ _ _ _ _ kw
  | Delete_function _ kw
  | Invoke_function _ kw
  | List_functions kw
  | Get_function _ kw => kw
  | _ => []
  end.

(** A world in which the uploader gives its failure value. *)
Definition no_upload (initial : list string) : world :=
  fun h c =>
    match c with
    | S3UploadFile _ _ _ => Ok (VBool false)
    | _ => Demo.service initial Demo.not_found h c
    end.



(** ** Shapes of the part of a deploy pass that belongs to one spec *)





(** * Properties *)

(** ** Strings *)

Lemma append_empty_r (s : string) : s ++ "" = s.
Proof. induction s as [|c s IH]; simpl; [reflexivity | now rewrite IH]. Qed.

Lemma append_assoc (a b c : string) : (a ++ b) ++ c = a ++ (b ++ c).
Proof. induction a as [|x a IH]; simpl; [reflexivity | now rewrite IH]. Qed.


(** ** Rules for runs *)

Lemma wp_ret {A} (a : A) h (Q : outcome A -> list event -> Prop) :
  Q (Ok a) [] -> wp (ret a) h Q.
Proof. exact (fun H => H). Qed.

Lemma wp_raise {A} (e : exn) h (Q : outcome A -> list event -> Prop) :
  Q (Raise e) [] -> wp (raise e) h Q.
Proof. exact (fun H => H). Qed.

Lemma wp_lift {A} (o : outcome A) h (Q : outcome A -> list event -> Prop) :
  Q o [] -> wp (lift o) h Q.
Proof. exact (fun H => H). Qed.

Lemma wp_bind {A B} (m : M A) (f : A -> M B) h
    (Q : outcome B -> list event -> Prop) :
  wp m h (fun r t =>
            match r with
            | Ok a => wp (f a) (h ++ t)%list (fun r' t' => Q r' (t ++ t')%list)
            | Raise e => Q (Raise e) t
            end) ->
  wp (bind m f) h Q.
Proof.
  unfold wp, bind. destruct (m h) as [[a|e] t]; simpl; [|exact (fun H => H)].
  destruct (f a (h ++ t)%list) as [r t']; simpl. exact (fun H => H).
Qed.

Lemma wp_try_except {A} (m : M A) (caught : exn -> bool)
    (handler : exn -> M A) (h : list event)
    (Q : outcome A -> list event -> Prop) :
  wp m h (fun r t =>
            match r with
            | Ok a => Q (Ok a) t
            | Raise e =>
                if caught e
                then wp (handler e) (h ++ t)%list
                        (fun r' t' => Q r' (t ++ t')%list)
                else Q (Raise e) t
            end) ->
  wp (try_except m caught handler) h Q.
Proof.
  unfold wp, try_except. destruct (m h) as [[a|e] t]; simpl;
    [exact (fun H => H)|].
  destruct (caught e); [|exact (fun H => H)].
  destruct (handler e (h ++ t)%list) as [r t']; simpl. exact (fun H => H).
Qed.

Lemma wp_ask (W : world) (c : call) h
    (Q : outcome value -> list event -> Prop) :
  (forall o, Q o [Called c o]) -> wp (ask W c) h Q.
Proof. intros H. apply H. Qed.

Lemma wp_info msg tag h (Q : outcome unit -> list event -> Prop) :
  Q (Ok tt) [Printed Info (Msg msg) tag] -> wp (Oprint_info msg tag) h Q.
Proof. exact (fun H => H). Qed.

Lemma wp_err p tag h (Q : outcome unit -> list event -> Prop) :
  Q (Ok tt) [Printed Err p tag] -> wp (Oprint_err p tag) h Q.
Proof. exact (fun H => H). Qed.

(** The loop adds nothing but what its body adds. *)
Lemma for_each_forall {A} (P : event -> Prop) (body : A -> M unit) :
  (forall x h, Forall P (snd (body x h))) ->
  forall l h, Forall P (snd (for_each body l h)).
Proof.
  intros Hbody l. induction l as [|x l IH]; intros h; simpl.
  - constructor.
  - unfold bind. specialize (Hbody x h).
    destruct (body x h) as [[[]|e] t]; simpl in *; [|assumption].
    specialize (IH (h ++ t)%list).
    destruct (for_each body l (h ++ t)%list) as [r t']; simpl in *.
    apply Forall_app; split; assumption.
Qed.


(** ** Facts on dictionaries and names *)

Lemma dict_lookup_set_other (k k' : string) (v : value) (d : dict) :
  (k' =? k) = false ->
  dict_lookup k (dict_set k' v d) = dict_lookup k d.
Proof.
  intros Hk. induction d as [|[k0 v0] d IH]; simpl.
  - rewrite Hk. reflexivity.
  - destruct (k0 =? k') eqn:E0; simpl.
    + apply String.eqb_eq in E0. subst k0. rewrite Hk. reflexivity.
    + rewrite IH. reflexivity.
Qed.

Lemma get_function_name_eq p rp fn :
  get_function_name p rp fn = p ++ "-" ++ py_str rp fn.
Proof.
  unfold get_function_name. cbn [format Ascii.eqb Bool.eqb].
  now rewrite append_empty_r.
Qed.

Lemma get_zip_name_eq p rp fn :
  get_zip_name p rp fn = p ++ "-" ++ py_str rp fn ++ ".zip".
Proof. reflexivity. Qed.

Lemma append_cons_nonempty (a : string) (c : ascii) (b : string) :
  (a ++ String c b =? "") = false.
Proof. destruct a; reflexivity. Qed.

Lemma length_append (a b : string) :
  String.length (a ++ b) = String.length a + String.length b.
Proof. induction a as [|c a IH]; simpl; [reflexivity | now rewrite IH]. Qed.

(** The path of the artifact is never the empty string, so that
    [file_path] is truthy whenever packaging succeeded. *)
Lemma truthy_zip_target (S : settings) (fn : value) :
  truthy (VStr (TMP_DIR S ++ get_zip_name (name_id S) (repr_object S) fn))
  = true.
Proof.
  rewrite get_zip_name_eq. cbn [truthy append].
  rewrite <- append_assoc. change ("-" ++ py_str (repr_object S) fn ++ ".zip")
    with (String "-" (py_str (repr_object S) fn ++ ".zip")).
  now rewrite append_cons_nonempty.
Qed.

(** A response in which the probe finds a configuration is truthy. *)
Lemma found_response_truthy (resp : value) :
  found_response resp = true -> truthy resp = true.
Proof.
  unfold found_response. destruct resp; try discriminate.
  destruct d; [discriminate | reflexivity].
Qed.

(** A call [self.create_function( **params )] whose [params] has no entry
    named [func_name] does not reach the body of [create_function]. *)
Lemma create_function_from_unbound (S : settings) (W : world) (params : dict) :
  dict_lookup "func_name" params = None ->
  create_function_from S W params
  = raise (TypeError "create_function() takes at least 6 arguments").
Proof.
  intros H. unfold create_function_from. cbn [bind_params]. rewrite H.
  reflexivity.
Qed.

(** ** Derived rules for the methods *)

Lemma wp_remove_zip (S : settings) (W : world) (fn : value) h
    (Q : outcome unit -> list event -> Prop) :
  (forall o,
      Q (after_remove o)
        [Called (OsRemove (TMP_DIR S
                           ++ get_zip_name (name_id S) (repr_object S) fn))
                o]) ->
  wp (remove_zip S W fn) h Q.
Proof.
  intros H. unfold remove_zip. apply wp_try_except, wp_bind, wp_ask.
  intros o. specialize (H o). destruct o as [r|e]; cbn in *.
  - exact H.
  - destruct (is_OSError e); exact H.
Qed.

(** The four ways out of the existence probe. *)
Lemma wp_get_function (W : world) (fn : value) h
    (Q : outcome value -> list event -> Prop) :
  let probe := ClientCall GetFunction [("FunctionName", fn)] in
  (forall resp, found_response resp = true ->
                Q (Ok resp) [Called probe (Ok resp)]) ->
  (forall resp, absent_response resp = true ->
                Q (Ok (VBool false)) [Called probe (Ok resp)]) ->
  (forall resp e, method_get resp "Configuration" = Raise e ->
                  Q (Raise e) [Called probe (Ok resp)]) ->
  (forall e, Q (Raise (UnboundLocalError "response"))
               [Called probe (Raise e); Printed Err (Exc e) "lambda"]) ->
  wp (get_function W fn []) h Q.
Proof.
  intros probe Hfound Habsent Hattr Hraise.
  unfold wp, get_function, try_response, client, read_local, bind,
    try_except, lift, ask, Oprint_err, ret, raise. cbn.
  destruct (W (h ++ [])%list (ClientCall GetFunction [("FunctionName", fn)]))
    as [resp|e]; cbn.
  - specialize (Hfound resp). specialize (Habsent resp).
    specialize (Hattr resp).
    unfold found_response, absent_response in *.
    destruct (method_get resp "Configuration") as [c|e]; cbn.
    + destruct (truthy c); cbn in *; auto.
    + eauto.
  - apply Hraise.
Qed.

(** ** Symbolic execution *)

Ltac wp_simpl :=
  cbn beta iota delta [method_get app fst snd call_kwargs existsb dict_keys
                       map negb].

Ltac wp_step :=
  lazymatch goal with
  | |- wp (bind _ _) _ _ => apply wp_bind
  | |- wp (ret _) _ _ => apply wp_ret
  | |- wp (raise _) _ _ => apply wp_raise
  | |- wp (lift _) _ _ => apply wp_lift
  | |- wp (ask _ _) _ _ => apply wp_ask; intros [?r|?e]
  | |- wp (Oprint_info _ _) _ _ => apply wp_info
  | |- wp (Oprint_err _ _) _ _ => apply wp_err
  | |- wp (remove_zip _ _ _) _ _ => apply wp_remove_zip; intros ?o
  | |- wp (get_function _ _ []) _ _ =>
      apply wp_get_function;
      [ intros ?resp ?Hfound; wp_simpl;
        rewrite ?(found_response_truthy _ Hfound)
      | intros ?resp ?Habsent; wp_simpl; cbn [truthy]
      | intros ?resp ?e ?Hattr
      | intros ?e ]
  | |- wp (try_except _ _ _) _ _ => apply wp_try_except
  | |- wp (create_function_from _ _ _) _ _ =>
      rewrite create_function_from_unbound
        by (repeat match goal with
                   | |- context [if ?b then _ else _] => destruct b
                   end; reflexivity)
  | |- wp (if truthy (VStr (TMP_DIR _ ++ _)) then _ else _) _ _ =>
      rewrite truthy_zip_target
  | |- wp (if truthy (VBool ?b) then _ else _) _ _ =>
      change (truthy (VBool b)) with b
  | |- wp (if ?b then _ else _) _ _ => destruct b eqn:?
  | |- wp (match ?o with Some _ => _ | None => _ end) _ _ => destruct o eqn:?
  | |- wp (match ?o with Ok _ => _ | Raise _ => _ end) _ _ => destruct o eqn:?
  | |- match ?o with Ok _ => _ | Raise _ => _ end => destruct o eqn:?
  | |- if ?b then _ else _ => destruct b eqn:?
  | |- wp (lm_get _ _) _ _ => unfold lm_get
  | |- wp (try_response _) _ _ => unfold try_response
  | |- wp (client _ _ _ _) _ _ => unfold client
  | |- wp (read_local _ _) _ _ => unfold read_local
  | |- wp (zip_function _ _ _) _ _ => unfold zip_function
  | |- wp (create_role _ _ _) _ _ => unfold create_role
  | |- wp (delete_role _ _) _ _ => unfold delete_role
  | |- wp (add_permission _ _ _ _ _ _) _ _ => unfold add_permission
  | |- wp (remove_permission _ _ _ _) _ _ => unfold remove_permission
  | |- wp (create_function _ _ _ _ _ _ _ _) _ _ => unfold create_function
  | |- wp (delete_function _ _ _ _) _ _ => unfold delete_function
  | |- wp (invoke _ _ _ _) _ _ => unfold invoke
  | |- wp (list_functions _ _) _ _ => unfold list_functions
  | |- wp (update_function_code _ _ _ _) _ _ => unfold update_function_code
  | |- wp (get_function _ _ _) _ _ => unfold get_function
  end.

Ltac wp_auto := repeat (wp_step; wp_simpl).

Lemma absent_not_found (resp : value) :
  absent_response resp = true -> found_response resp = false.
Proof.
  unfold absent_response, found_response.
  destruct (method_get resp "Configuration") as [c|e]; [|reflexivity].
  now destruct (truthy c).
Qed.

Lemma found_not_absent (resp : value) :
  found_response resp = true -> absent_response resp = false.
Proof.
  unfold absent_response, found_response.
  destruct (method_get resp "Configuration") as [c|e]; [|reflexivity].
  now destruct (truthy c).
Qed.

Lemma no_configuration_not_found (resp : value) (e : exn) :
  method_get resp "Configuration" = Raise e -> found_response resp = false.
Proof. unfold found_response. now intros ->. Qed.

Lemma no_configuration_not_absent (resp : value) (e : exn) :
  method_get resp "Configuration" = Raise e -> absent_response resp = false.
Proof. unfold absent_response. now intros ->. Qed.

(** What is known of the responses at the end of a path. *)
Ltac probe_facts :=
  repeat match goal with
    | H : found_response ?r = true |- _ =>
        rewrite ?H, ?(found_not_absent _ H) in *; clear H
    | H : absent_response ?r = true |- _ =>
        rewrite ?H, ?(absent_not_found _ H) in *; clear H
    | H : method_get ?r "Configuration" = Raise _ |- _ =>
        rewrite ?(no_configuration_not_found _ _ H),
                ?(no_configuration_not_absent _ _ H) in *; clear H
    end.

Ltac observe :=
  cbn [probe_found probe_absent packaging_failed existsb filter client_calls
       is_client is_upload is_create_role is_delete_role is_remote
       upload_keys sent_names orb andb negb dict_get dict_lookup String.eqb
       Ascii.eqb Bool.eqb length] in *.

(** C4: the four name helpers follow the documented templates: for a
    project id [p], a function name [f] and a principal id [pid] they
    give [p-f], [lmdo-p-f], [p-f.zip] and [stmt-p-f-pid]; project id
    [demo] and function name [hello] give [demo-hello],
    [lmdo-demo-hello] and [demo-hello.zip]. *)
Theorem names_follow_templates :
  (forall (rp : value -> string) (p f pid : string),
      get_function_name p rp (VStr f) = p ++ "-" ++ f
      /\ get_role_name p rp (VStr f) = "lmdo-" ++ p ++ "-" ++ f
      /\ get_zip_name p rp (VStr f) = p ++ "-" ++ f ++ ".zip"
      /\ get_statement_id p rp (VStr f) (VStr pid)
         = "stmt-" ++ p ++ "-" ++ f ++ "-" ++ pid)
  /\ (forall rp : value -> string,
         get_function_name "demo" rp (VStr "hello") = "demo-hello"
         /\ get_role_name "demo" rp (VStr "hello") = "lmdo-demo-hello"
         /\ get_zip_name "demo" rp (VStr "hello") = "demo-hello.zip"
         /\ get_statement_id "demo" rp (VStr "hello") (VStr "apigateway")
            = "stmt-demo-hello-apigateway").
Proof.
  split.
  - intros rp p f pid.
    unfold get_statement_id, get_function_name, get_role_name, get_zip_name.
    cbn [format Ascii.eqb Bool.eqb py_str].
    rewrite !append_empty_r, ?append_assoc. cbn [append].
    repeat split; reflexivity.
  - intros rp. repeat split; reflexivity.
Qed.


(** ** The deploy pass *)

Section Deploy.
Variable S : settings.
Variable W : world.

(** The deploy of a spec never reaches the create-function operation
    of the SDK. *)
Lemma process_one_never_creates (lm : value) (h : list event) :
  Forall (fun ev => is_client CreateFunction ev = false)
         (snd (process_one S W lm h)).
Proof.
  change (wp (process_one S W lm) h
            (fun _ t =>
               Forall (fun ev => is_client CreateFunction ev = false) t)).
  unfold process_one. destruct lm; wp_auto; repeat constructor.
Qed.

(** Every upload of the deploy of a spec has the bound method
    [get_zip_name] as its key. *)
Lemma process_one_upload_key (lm : value) (h : list event) :
  Forall key_is_method (snd (process_one S W lm h)).
Proof.
  change (wp (process_one S W lm) h (fun _ t => Forall key_is_method t)).
  unfold process_one. destruct lm; wp_auto; repeat constructor.
Qed.

(** When the probe finds the function, the deploy of the spec calls
    update-function-code. *)
Lemma process_one_found_updates (lm : value) (h : list event) :
  probe_found (snd (process_one S W lm h)) = true ->
  existsb (is_client UpdateFunctionCode) (snd (process_one S W lm h)) = true.
Proof.
  change (wp (process_one S W lm) h
            (fun _ t => probe_found t = true ->
                        existsb (is_client UpdateFunctionCode) t = true)).
  unfold process_one. destruct lm; wp_auto; observe; intros; probe_facts;
    try discriminate; try reflexivity.
Qed.

(** What a pass adds to the trace comes from the deploy of its specs,
    or is the notice that nothing is configured. *)
Lemma process_forall (P : event -> Prop) :
  (forall lm h, Forall P (snd (process_one S W lm h))) ->
  (forall msg, P (Printed Info (Msg msg) "lambda")) ->
  forall h, Forall P (snd (process S W h)).
Proof.
  intros Hone Hmsg h. unfold process.
  destruct (truthy (dict_get "Lambda" (_config S))); cbn [negb].
  - unfold bind, lift.
    destruct (py_iter (dict_get "Lambda" (_config S))) as [specs|e];
      [|constructor].
    pose proof (for_each_forall P (process_one S W) (Hone) specs
                  (h ++ [])%list) as H.
    destruct (for_each (process_one S W) specs (h ++ [])%list)
      as [[[]|e] t]; cbn in *.
    + now rewrite app_nil_r.
    + assumption.
  - repeat constructor. apply Hmsg.
Qed.

(** The probe of the deploy of a spec names the function as the spec
    does, without the project prefix. *)
Lemma process_one_probe_name (d : dict) (h : list event) :
  Forall (eq (dict_get "FunctionName" d))
         (sent_names GetFunction (snd (process_one S W (VDict d) h))).
Proof.
  change (wp (process_one S W (VDict d)) h
            (fun _ t => Forall (eq (dict_get "FunctionName" d))
                               (sent_names GetFunction t))).
  unfold process_one. wp_auto; observe; repeat constructor.
Qed.




(** The deploy of a spec creates at most one role, and none when the
    spec names its role or when the probe finds the function. *)
Lemma process_one_roles (lm : value) (h : list event) :
  length (filter is_create_role (snd (process_one S W lm h))) <= 1
  /\ (probe_found (snd (process_one S W lm h)) = true ->
      filter is_create_role (snd (process_one S W lm h)) = [])
  /\ (forall d, lm = VDict d -> truthy (dict_get "Role" d) = true ->
                filter is_create_role (snd (process_one S W lm h)) = []).
Proof.
  change (wp (process_one S W lm) h
            (fun _ t =>
               length (filter is_create_role t) <= 1
               /\ (probe_found t = true -> filter is_create_role t = [])
               /\ (forall d, lm = VDict d ->
                              truthy (dict_get "Role" d) = true ->
                              filter is_create_role t = []))).
  unfold process_one. destruct lm; wp_auto; observe;
    (split; [lia|]); (split; [intros; probe_facts; try discriminate;
                               reflexivity|]);
    intros d' Hd Hrole; try reflexivity; injection Hd as <-;
    congruence.
Qed.


End Deploy.

Lemma filter_none {A} (f : A -> bool) (l : list A) :
  Forall (fun x => f x = false) l -> filter f l = [].
Proof.
  induction 1 as [|x l Hx _ IH]; simpl; [reflexivity|].
  now rewrite Hx.
Qed.

Lemma existsb_none {A} (f : A -> bool) (l : list A) :
  Forall (fun x => f x = false) l -> existsb f l = false.
Proof.
  induction 1 as [|x l Hx _ IH]; simpl; [reflexivity|].
  now rewrite Hx.
Qed.

Lemma upload_keys_forall (P : value -> Prop) (t : list event) :
  Forall (fun ev => match ev with
                    | Called (S3UploadFile _ key _) _ => P key
                    | _ => True
                    end) t ->
  Forall P (upload_keys t).
Proof.
  induction 1 as [|ev t Hev _ IH]; simpl; [constructor|].
  destruct ev as [[] o|]; try assumption. constructor; assumption.
Qed.

(** A pass never reaches the create-function operation of the SDK. *)
Lemma process_never_creates (S : settings) (W : world) (h : list event) :
  client_calls CreateFunction (snd (process S W h)) = [].
Proof.
  apply filter_none, process_forall.
  - apply process_one_never_creates.
  - reflexivity.
Qed.

(** Every key a pass uploads under is the bound method. *)
Lemma process_upload_keys (S : settings) (W : world) (h : list event) :
  Forall (eq (VMethod "get_zip_name")) (upload_keys (snd (process S W h))).
Proof.
  apply upload_keys_forall.
  assert (H : Forall key_is_method (snd (process S W h))).
  { apply process_forall; [apply process_one_upload_key | exact (fun _ => I)]. }
  revert H. apply Forall_impl. intros [[] o|]; cbn; auto.
Qed.

(** ** The remote-API wrappers *)

Section Wrappers.
Variable S : settings.
Variable W : world.

(** The function name each wrapper sends to the SDK. *)
Lemma wrappers_sent_names (f : value) (h : list event) :
  let prefixed := VStr (get_function_name (name_id S) (repr_object S) f) in
  (forall role handler code runtime,
      sent_names CreateFunction
        (snd (create_function S W f role handler code runtime [] h))
      = [prefixed])
  /\ sent_names DeleteFunction (snd (delete_function S W f [] h))
     = [prefixed]
  /\ sent_names Invoke (snd (invoke S W f [] h)) = [prefixed]
  /\ (forall bucket,
         sent_names UpdateFunctionCode
           (snd (update_function_code S W f bucket h)) = [prefixed])
  /\ (forall principal pid action,
         sent_names AddPermission
           (snd (add_permission S W f principal pid action h)) = [prefixed])
  /\ sent_names GetFunction (snd (get_function W f [] h)) = [f]
  /\ (forall pid,
         sent_names RemovePermission
           (snd (remove_permission S W f pid h)) = [f]).
Proof.
  intros prefixed. subst prefixed. repeat split; intros.
  1: change (wp (create_function S W f role handler code runtime []) h
               (fun _ t => sent_names CreateFunction t
                           = [VStr (get_function_name (name_id S)
                                      (repr_object S) f)])).
  2: change (wp (delete_function S W f []) h
               (fun _ t => sent_names DeleteFunction t
                           = [VStr (get_function_name (name_id S)
                                      (repr_object S) f)])).
  3: change (wp (invoke S W f []) h
               (fun _ t => sent_names Invoke t
                           = [VStr (get_function_name (name_id S)
                                      (repr_object S) f)])).
  4: change (wp (update_function_code S W f bucket) h
               (fun _ t => sent_names UpdateFunctionCode t
                           = [VStr (get_function_name (name_id S)
                                      (repr_object S) f)])).
  5: change (wp (add_permission S W f principal pid action) h
               (fun _ t => sent_names AddPermission t
                           = [VStr (get_function_name (name_id S)
                                      (repr_object S) f)])).
  6: change (wp (get_function W f []) h
               (fun _ t => sent_names GetFunction t = [f])).
  7: change (wp (remove_permission S W f pid) h
               (fun _ t => sent_names RemovePermission t = [f])).
  all: wp_auto; reflexivity.
Qed.

End Wrappers.

(** A name never equals itself with the project prefix put before it. *)
Lemma prefixed_name_differs (p : string) (rp : value -> string) (f : value) :
  f <> VStr (get_function_name p rp f).
Proof.
  destruct f; try discriminate.
  intros H. injection H as H. rewrite get_function_name_eq in H.
  cbn [py_str] in H. apply (f_equal String.length) in H.
  rewrite !length_append in H. cbn in H. lia.
Qed.

(** ** The destroy pass *)

Section Destroy.
Variable S : settings.
Variable W : world.

(** A spec that names its role: the destroy of the spec deletes no
    role. *)
Lemma delete_one_keeps_given_role (d : dict) (h : list event) :
  truthy (dict_get "Role" d) = true ->
  existsb is_delete_role (snd (delete_one S W (VDict d) h)) = false.
Proof.
  intros Hrole.
  change (wp (delete_one S W (VDict d)) h
            (fun _ t => existsb is_delete_role t = false)).
  unfold delete_one. wp_auto; try reflexivity;
    rewrite Hrole in *; discriminate.
Qed.

(** The probe of the destroy of a spec names the function without the
    project prefix, the deletion names it with the prefix. *)
Lemma delete_one_names (d : dict) (h : list event) :
  Forall (eq (dict_get "FunctionName" d))
         (sent_names GetFunction (snd (delete_one S W (VDict d) h)))
  /\ Forall (eq (VStr (get_function_name (name_id S) (repr_object S)
                         (dict_get "FunctionName" d))))
            (sent_names DeleteFunction (snd (delete_one S W (VDict d) h))).
Proof.
  change (wp (delete_one S W (VDict d)) h
            (fun _ t =>
               Forall (eq (dict_get "FunctionName" d))
                      (sent_names GetFunction t)
               /\ Forall (eq (VStr (get_function_name (name_id S)
                                      (repr_object S)
                                      (dict_get "FunctionName" d))))
                         (sent_names DeleteFunction t))).
  unfold delete_one. wp_auto; observe; split; repeat constructor.
Qed.

End Destroy.

(** ** The loops of the passes *)

(** A loop that meets a failing element ends there: the elements after
    it are not run. *)
Lemma for_each_stops {A} (body : A -> M unit) (pre : list A) (x : A)
    (post : list A) (h : list event) (e : exn) :
  fst (for_each body pre h) = Ok tt ->
  fst (body x (h ++ snd (for_each body pre h))%list) = Raise e ->
  for_each body (pre ++ x :: post) h
  = (Raise e,
     (snd (for_each body pre h)
      ++ snd (body x (h ++ snd (for_each body pre h))))%list).
Proof.
  revert h. induction pre as [|y pre IH]; intros h Hpre Hx.
  - cbn in *. unfold bind. rewrite app_nil_r in *.
    destruct (body x h) as [[u|e'] t]; cbn in *; [discriminate Hx|].
    now injection Hx as ->.
  - cbn [app for_each] in *. unfold bind in *.
    destruct (body y h) as [[u|e'] t]; cbn in *; [|discriminate Hpre].
    specialize (IH (h ++ t)%list).
    destruct (for_each body pre (h ++ t)%list) as [r t'] eqn:Epre.
    cbn in *. rewrite app_assoc in Hx. rewrite (IH Hpre Hx).
    now rewrite <- !app_assoc.
Qed.



Section Passes.
Variable S : settings.
Variable W : world.




(** The destroy of a spec that names no role and whose function the
    probe does not find: it raises, in one of four ways, and deletes no
    role. *)
Lemma delete_one_not_found (d : dict) (h : list event) :
  truthy (dict_get "Role" d) = false ->
  probe_found (snd (delete_one S W (VDict d) h)) = false ->
  let fn := dict_get "FunctionName" d in
  let name := get_function_name (name_id S) (repr_object S) fn in
  let probe := ClientCall GetFunction [("FunctionName", fn)] in
  let deletion := ClientCall DeleteFunction [("FunctionName", VStr name)] in
  let r := fst (delete_one S W (VDict d) h) in
  let t := snd (delete_one S W (VDict d) h) in
  existsb is_delete_role t = false
  /\ ((exists e0,
          t = [Called probe (Raise e0); Printed Err (Exc e0) "lambda"]
          /\ r = Raise (UnboundLocalError "response"))
      \/ (exists resp e0,
             method_get resp "Configuration" = Raise e0
             /\ t = [Called probe (Ok resp)]
             /\ r = Raise e0)
      \/ (exists resp e0,
             absent_response resp = true
             /\ t = [Called probe (Ok resp);
                     Called deletion (Raise e0);
                     Printed Err (Exc e0) "lambda"]
             /\ r = Raise (UnboundLocalError "response"))
      \/ (exists resp r0,
             absent_response resp = true
             /\ t = [Called probe (Ok resp);
                     Called deletion (Ok r0);
                     Printed Info
                       (Msg (format "Lambda function {} has been deleted"
                                    [name])) "lambda"]
             /\ r = Raise (AttributeError "bool" "get"))).
Proof.
  intros Hrole. cbv zeta.
  match goal with
  | |- _ -> ?Q =>
      let Q' := eval pattern (fst (delete_one S W (VDict d) h)),
                             (snd (delete_one S W (VDict d) h)) in Q in
      lazymatch Q' with
      | ?F _ _ =>
          change (wp (delete_one S W (VDict d)) h
                    (fun r t => probe_found t = false -> F r t))
      end
  end.
  unfold delete_one. wp_auto; cbv beta; intros Hnf.
  all: try (cbn [probe_found existsb orb] in Hnf;
            match goal with
            | H : found_response _ = true |- _ =>
                rewrite H in Hnf; discriminate Hnf
            end).
  all: try (rewrite Hrole in *; discriminate).
  all: (split; [reflexivity|]).
  all: first
    [ left; eexists; split; reflexivity
    | right; left; do 2 eexists; split; [eassumption|split; reflexivity]
    | right; right; left; do 2 eexists;
      split; [eassumption|split; reflexivity]
    | right; right; right; do 2 eexists;
      split; [eassumption|split; reflexivity] ].
Qed.

End Passes.

(** * The claims *)

(** C1: a deploy pass updates the code of a function that the probe
    finds, and is to create the function otherwise, after the role is
    resolved.  The update half holds ([process_one_found_updates]).  The
    create half does not: [process] calls [self.create_function( **params )]
    with the keys [FunctionName], [Role], [Handler], ..., none of which
    is a parameter of [create_function], so the call raises [TypeError]
    and the create-function operation of the SDK is never reached, in
    any world; on the two sample specs the role is resolved (given, or
    created once from the policy document) and the pass then ends in
    that [TypeError]. *)
Theorem deploy_never_reaches_create_function :
  (forall (S : settings) (W : world) (h : list event),
      client_calls CreateFunction (snd (process S W h)) = [])
  /\ (forall (S : settings) (W : world) (lm : value) (h : list event),
         probe_found (snd (process_one S W lm h)) = true ->
         existsb (is_client UpdateFunctionCode) (snd (process_one S W lm h))
         = true)
  /\ (let run := process (Demo.project [Demo.hello_with_role])
                         (Demo.service [] Demo.empty_response) [] in
      fst run = Raise (TypeError "create_function() takes at least 6 arguments")
      /\ probe_absent (snd run) = true
      /\ filter is_create_role (snd run) = [])
  /\ (let run := process (Demo.project [Demo.hello_no_role])
                         (Demo.service [] Demo.empty_response) [] in
      fst run = Raise (TypeError "create_function() takes at least 6 arguments")
      /\ probe_absent (snd run) = true
      /\ filter is_create_role (snd run)
         = [Called (IamCreateRole (VStr "lmdo-demo-hello") (VStr "{}"))
                   (Ok (VDict [("Role",
                                VDict [("RoleName", VStr "lmdo-demo-hello")])]))]).
Proof.
  split; [exact process_never_creates|].
  split; [exact process_one_found_updates|].
  split; cbv zeta; repeat split; reflexivity.
Qed.

(** C2: when the SDK call of a wrapper raises, the exception is caught
    and logged, but the wrapper does not go on to return a response: its
    local [response] was never assigned, and reading it raises
    [UnboundLocalError] to the caller.  This holds for each of the eight
    wrappers. *)
Theorem wrapper_failure_raises_unbound_local
    (S : settings) (W : world) (w : wrapper_call) (h : list event)
    (op : sdk_op) (kw : dict) (e : exn) :
  In (Called (ClientCall op kw) (Raise e)) (snd (run_wrapper S W w h)) ->
  fst (run_wrapper S W w h) = Raise (UnboundLocalError "response")
  /\ snd (run_wrapper S W w h)
     = [Called (ClientCall op kw) (Raise e); Printed Err (Exc e) "lambda"].
Proof.
  change (wp (run_wrapper S W w) h
            (fun r t =>
               In (Called (ClientCall op kw) (Raise e)) t ->
               r = Raise (UnboundLocalError "response")
               /\ t = [Called (ClientCall op kw) (Raise e);
                       Printed Err (Exc e) "lambda"])).
  destruct w; unfold run_wrapper; wp_auto; cbn [In]; intros Hin;
    repeat match goal with
      | H : _ \/ _ |- _ => destruct H
      | H : False |- _ => destruct H
      | H : Called _ _ = Called _ _ |- _ => inversion H; subst; clear H
      | H : Printed _ _ _ = Called _ _ |- _ => discriminate H
      end;
    split; reflexivity.
Qed.

Lemma wrapper_failure_witness :
  fst (run_wrapper (Demo.project []) Demo.unreachable
         (Delete_function (VStr "hello") []) [])
  = Raise (UnboundLocalError "response")
  /\ snd (run_wrapper (Demo.project []) Demo.unreachable
            (Delete_function (VStr "hello") []) [])
     = [Called (ClientCall DeleteFunction [("FunctionName", VStr "demo-hello")])
               (Raise (ClientError "EndpointConnectionError"));
        Printed Err (Exc (ClientError "EndpointConnectionError")) "lambda"].
Proof.
  apply (wrapper_failure_raises_unbound_local (Demo.project [])
           Demo.unreachable (Delete_function (VStr "hello") []) []
           DeleteFunction [("FunctionName", VStr "demo-hello")]
           (ClientError "EndpointConnectionError")).
  simpl. left. reflexivity.
Defined.

(** C3: a spec without explicit role gets one role created before the
    function is created, and destroy is to delete that role; with an
    explicit role destroy deletes none.  The last part holds in every
    world.  The deletion does not: the function [demo-hello] being
    deployed with its role, destroy probes the name [hello], and
    whether the service raises on the unknown name or answers an empty
    response, the pass raises before [delete_role] is reached. *)
Theorem destroy_does_not_delete_created_role :
  (forall (S : settings) (W : world) (d : dict) (h : list event),
      truthy (dict_get "Role" d) = true ->
      existsb is_delete_role (snd (delete_one S W (VDict d) h)) = false)
  /\ (forall (S : settings) (W : world) (lm : value) (h : list event),
         length (filter is_create_role (snd (process_one S W lm h))) <= 1)
  /\ (let run := delete (Demo.project [Demo.hello_no_role])
                        (Demo.service ["demo-hello"] Demo.not_found) [] in
      fst run = Raise (UnboundLocalError "response")
      /\ existsb is_delete_role (snd run) = false
      /\ client_calls DeleteFunction (snd run) = [])
  /\ (let run := delete (Demo.project [Demo.hello_no_role])
                        (Demo.service ["demo-hello"] Demo.empty_response) [] in
      fst run = Raise (AttributeError "bool" "get")
      /\ existsb is_delete_role (snd run) = false
      /\ sent_names DeleteFunction (snd run) = [VStr "demo-hello"]).
Proof.
  split; [exact delete_one_keeps_given_role|].
  split; [intros S W lm h; apply process_one_roles|].
  split; cbv zeta; repeat split; reflexivity.
Qed.

(** C5: the key under which a deploy pass uploads the artifact is to be
    the package key [{project-id}-{FunctionName}.zip].  It is not: the
    upload is given the bound method [self.get_zip_name] itself, not
    the result of calling it, in every upload of every pass. *)
Theorem upload_key_is_the_bound_method :
  (forall (S : settings) (W : world) (h : list event),
      Forall (eq (VMethod "get_zip_name"))
             (upload_keys (snd (process S W h))))
  /\ (forall (p : string) (rp : value -> string) (f : value),
         VMethod "get_zip_name" <> VStr (get_zip_name p rp f))
  /\ upload_keys
       (snd (process (Demo.project [Demo.hello_with_role])
                     (Demo.service ["hello"] Demo.not_found) []))
     = [VMethod "get_zip_name"].
Proof.
  split; [exact process_upload_keys|].
  split; [discriminate | reflexivity].
Qed.




(** C7: with no [Lambda] entry in the configuration, or an empty list,
    both [process] and [delete] print their notice, return [True] and
    make no remote call. *)
Theorem nothing_configured_is_a_no_op
    (S : settings) (W : world) (h : list event) :
  dict_lookup "Lambda" (_config S) = None
  \/ dict_lookup "Lambda" (_config S) = Some (VList []) ->
  process S W h
  = (Ok (VBool true),
     [Printed Info (Msg "No Lambda function configured, skip...") "lambda"])
  /\ delete S W h
     = (Ok (VBool true),
        [Printed Info (Msg "No Lambda function configured, skip") "lambda"])
  /\ filter is_remote (snd (process S W h)) = []
  /\ filter is_remote (snd (delete S W h)) = [].
Proof.
  intros H.
  assert (Hf : truthy (dict_get "Lambda" (_config S)) = false).
  { unfold dict_get. destruct H as [-> | ->]; reflexivity. }
  unfold process, delete. rewrite Hf. cbn. repeat split; reflexivity.
Qed.

Lemma nothing_configured_witness :
  process (Demo.settings_of [("Service", VStr "svc")])
          (Demo.service ["demo-hello"] Demo.not_found) []
  = (Ok (VBool true),
     [Printed Info (Msg "No Lambda function configured, skip...") "lambda"])
  /\ delete (Demo.settings_of [("Service", VStr "svc")])
            (Demo.service ["demo-hello"] Demo.not_found) []
     = (Ok (VBool true),
        [Printed Info (Msg "No Lambda function configured, skip") "lambda"])
  /\ filter is_remote
       (snd (process (Demo.settings_of [("Service", VStr "svc")])
                     (Demo.service ["demo-hello"] Demo.not_found) [])) = []
  /\ filter is_remote
       (snd (delete (Demo.settings_of [("Service", VStr "svc")])
                    (Demo.service ["demo-hello"] Demo.not_found) [])) = [].
Proof.
  apply (nothing_configured_is_a_no_op
           (Demo.settings_of [("Service", VStr "svc")])
           (Demo.service ["demo-hello"] Demo.not_found) []).
  left. reflexivity.
Defined.

(** C8: every wrapper is to send the function name with the project
    prefix.  [create_function], [delete_function], [invoke],
    [update_function_code] and [add_permission] do; [get_function] and
    [remove_permission] send the name as they received it, which is
    never the prefixed name. *)
Theorem probe_and_removal_send_the_bare_name
    (S : settings) (W : world) (f : value) (h : list event) :
  let prefixed := VStr (get_function_name (name_id S) (repr_object S) f) in
  sent_names DeleteFunction (snd (delete_function S W f [] h)) = [prefixed]
  /\ sent_names Invoke (snd (invoke S W f [] h)) = [prefixed]
  /\ (forall role handler code runtime,
         sent_names CreateFunction
           (snd (create_function S W f role handler code runtime [] h))
         = [prefixed])
  /\ (forall bucket,
         sent_names UpdateFunctionCode
           (snd (update_function_code S W f bucket h)) = [prefixed])
  /\ sent_names GetFunction (snd (get_function W f [] h)) = [f]
  /\ (forall pid,
         sent_names RemovePermission (snd (remove_permission S W f pid h))
         = [f])
  /\ f <> prefixed.
Proof.
  intros prefixed.
  destruct (wrappers_sent_names S W f h)
    as (Hc & Hd & Hi & Hu & _ & Hg & Hr).
  repeat split; auto. apply prefixed_name_differs.
Qed.

(** C9: a second deploy of the same specs is to update the code of the
    functions the first one created.  With a service that keeps what is
    created: the first pass creates nothing (the call of
    [create_function] raises [TypeError]), and so does the second; and
    were [demo-hello] deployed already, the pass would probe [hello],
    not find it, and end without any update. *)
Theorem second_deploy_does_not_update :
  (let runs := process_twice (Demo.project [Demo.hello_with_role])
                             (Demo.service [] Demo.empty_response) in
   fst (fst runs)
   = Raise (TypeError "create_function() takes at least 6 arguments")
   /\ Demo.deployed [] (snd (fst runs)) = []
   /\ fst (snd runs)
      = Raise (TypeError "create_function() takes at least 6 arguments")
   /\ client_calls UpdateFunctionCode (snd (snd runs)) = [])
  /\ (let run := process (Demo.project [Demo.hello_with_role])
                         (Demo.service ["demo-hello"] Demo.not_found) [] in
      fst run = Raise (UnboundLocalError "response")
      /\ sent_names GetFunction (snd run) = [VStr "hello"]
      /\ client_calls UpdateFunctionCode (snd run) = [])
  /\ (forall (S : settings) (W : world) (d : dict) (h : list event),
         Forall (eq (dict_get "FunctionName" d))
                (sent_names GetFunction (snd (process_one S W (VDict d) h)))).
Proof.
  split; [cbv zeta; repeat split; reflexivity|].
  split; [cbv zeta; repeat split; reflexivity|].
  exact process_one_probe_name.
Qed.

(** C10: in a destroy pass, a spec that names no role and whose function
    the probe does not find makes the pass raise there, and no role is
    deleted for it.  How it raises depends on what the service answers.
    When the SDK raises on the missing function, [get_function] does
    not return [False]: it raises [UnboundLocalError] itself.  When the
    SDK answers with something that has no [get], [get_function] raises
    [AttributeError].  When the SDK answers a response without
    configuration, [get_function] returns [False]; then, if the SDK
    call of [delete_function] raises, the pass ends in the
    [UnboundLocalError] of [delete_function], and only if it succeeds
    is [info.get('Configuration')] called on [False], which raises
    [AttributeError]. *)
Theorem destroy_of_absent_function_raises
    (S : settings) (W : world) (h : list event)
    (pre : list value) (d : dict) (post : list value) :
  dict_get "Lambda" (_config S) = VList (pre ++ VDict d :: post) ->
  fst (for_each (delete_one S W) pre h) = Ok tt ->
  truthy (dict_get "Role" d) = false ->
  let before := snd (for_each (delete_one S W) pre h) in
  let t := snd (delete_one S W (VDict d) (h ++ before)%list) in
  probe_found t = false ->
  let fn := dict_get "FunctionName" d in
  let name := get_function_name (name_id S) (repr_object S) fn in
  let probe := ClientCall GetFunction [("FunctionName", fn)] in
  let deletion := ClientCall DeleteFunction [("FunctionName", VStr name)] in
  exists e,
    delete S W h = (Raise e, (before ++ t)%list)
    /\ existsb is_delete_role t = false
    /\ ((exists e0,
            t = [Called probe (Raise e0); Printed Err (Exc e0) "lambda"]
            /\ e = UnboundLocalError "response")
        \/ (exists resp,
               method_get resp "Configuration" = Raise e
               /\ t = [Called probe (Ok resp)])
        \/ (exists resp e0,
               absent_response resp = true
               /\ t = [Called probe (Ok resp);
                       Called deletion (Raise e0);
                       Printed Err (Exc e0) "lambda"]
               /\ e = UnboundLocalError "response")
        \/ (exists resp r0,
               absent_response resp = true
               /\ t = [Called probe (Ok resp);
                       Called deletion (Ok r0);
                       Printed Info
                         (Msg (format "Lambda function {} has been deleted"
                                      [name])) "lambda"]
               /\ e = AttributeError "bool" "get")).
Proof.
  intros Hcfg Hpre Hrole before t Hnf fn name probe deletion.
  subst before t fn name probe deletion.
  set (h1 := (h ++ snd (for_each (delete_one S W) pre h))%list) in *.
  destruct (delete_one_not_found S W d h1 Hrole Hnf) as [Hno Hcases].
  assert (Hraise : exists e, fst (delete_one S W (VDict d) h1) = Raise e).
  { destruct Hcases as [(e0 & _ & Hr)|[(resp & e0 & _ & _ & Hr)
      |[(resp & e0 & _ & _ & Hr)|(resp & r0 & _ & _ & Hr)]]];
      eexists; exact Hr. }
  destruct Hraise as [e He]. exists e.
  split.
  { unfold delete. rewrite Hcfg.
    replace (truthy (VList (pre ++ VDict d :: post))) with true
      by (destruct pre; reflexivity).
    cbn [negb py_iter]. unfold bind at 1. unfold lift. rewrite app_nil_r.
    unfold bind. rewrite (for_each_stops _ _ _ _ _ _ Hpre He). reflexivity. }
  split; [exact Hno|].
  rewrite He in Hcases.
  destruct Hcases as [(e0 & Ht & Hr)|[(resp & e0 & Hm & Ht & Hr)
    |[(resp & e0 & Ha & Ht & Hr)|(resp & r0 & Ha & Ht & Hr)]]];
    injection Hr as Hr; subst e.
  - left. exists e0. split; [exact Ht | reflexivity].
  - right; left. exists resp. split; assumption.
  - right; right; left. exists resp, e0. repeat split; assumption.
  - right; right; right. exists resp, r0. repeat split; assumption.
Qed.

Lemma destroy_of_absent_function_witness :
  let S := Demo.project [Demo.hello_no_role; Demo.hello_with_role] in
  let W := Demo.service [] Demo.not_found in
  let d := [("FunctionName", VStr "hello");
            ("S3Bucket", VStr "artifacts");
            ("Handler", VStr "handler.main");
            ("RolePolicyDocument", VStr "policy.json")] in
  let before := snd (for_each (delete_one S W) [] []) in
  let t := snd (delete_one S W (VDict d) ([] ++ before)%list) in
  let fn := dict_get "FunctionName" d in
  let name := get_function_name (name_id S) (repr_object S) fn in
  let probe := ClientCall GetFunction [("FunctionName", fn)] in
  let deletion := ClientCall DeleteFunction [("FunctionName", VStr name)] in
  exists e,
    delete S W [] = (Raise e, (before ++ t)%list)
    /\ existsb is_delete_role t = false
    /\ ((exists e0,
            t = [Called probe (Raise e0); Printed Err (Exc e0) "lambda"]
            /\ e = UnboundLocalError "response")
        \/ (exists resp,
               method_get resp "Configuration" = Raise e
               /\ t = [Called probe (Ok resp)])
        \/ (exists resp e0,
               absent_response resp = true
               /\ t = [Called probe (Ok resp);
                       Called deletion (Raise e0);
                       Printed Err (Exc e0) "lambda"]
               /\ e = UnboundLocalError "response")
        \/ (exists resp r0,
               absent_response resp = true
               /\ t = [Called probe (Ok resp);
                       Called deletion (Ok r0);
                       Printed Info
                         (Msg (format "Lambda function {} has been deleted"
                                      [name])) "lambda"]
               /\ e = AttributeError "bool" "get")).
Proof.
  apply (destroy_of_absent_function_raises
           (Demo.project [Demo.hello_no_role; Demo.hello_with_role])
           (Demo.service [] Demo.not_found) []
           [] [("FunctionName", VStr "hello");
               ("S3Bucket", VStr "artifacts");
               ("Handler", VStr "handler.main");
               ("RolePolicyDocument", VStr "policy.json")]
           [Demo.hello_with_role]); reflexivity.
Defined.

(** C10, where the claim fails: the function [demo-hello] not being
    deployed, the destroy of the spec does not end in [.get] on
    [False].  With a service that raises on the missing function, the
    probe raises [UnboundLocalError] and never returns [False]; with a
    service that answers the probe by an empty response, the probe
    returns [False], but [delete_function] fails on the missing
    function and raises [UnboundLocalError] before
    [info.get('Configuration')] is reached. *)
Lemma destroy_of_absent_function_ends_before_the_role_step :
  delete (Demo.project [Demo.hello_no_role])
         (Demo.service [] Demo.not_found) []
  = (Raise (UnboundLocalError "response"),
     [Called (ClientCall GetFunction [("FunctionName", VStr "hello")])
             (Raise (ClientError "ResourceNotFoundException"));
      Printed Err (Exc (ClientError "ResourceNotFoundException")) "lambda"])
  /\ probe_absent
       (snd (delete (Demo.project [Demo.hello_no_role])
                    (Demo.service [] Demo.not_found) [])) = false
  /\ delete (Demo.project [Demo.hello_no_role])
            (Demo.service [] Demo.empty_response) []
     = (Raise (UnboundLocalError "response"),
        [Called (ClientCall GetFunction [("FunctionName", VStr "hello")])
                (Ok (VDict []));
         Called (ClientCall DeleteFunction
                   [("FunctionName", VStr "demo-hello")])
                (Raise (ClientError "ResourceNotFoundException"));
         Printed Err (Exc (ClientError "ResourceNotFoundException"))
                 "lambda"]).
Proof. repeat split; reflexivity. Qed.

(** * Further properties of the class *)

(** ** Names *)

Lemma append_inj_l (a b c : string) : a ++ b = a ++ c -> b = c.
Proof.
  induction a as [|x a IH]; simpl; intros H; [assumption|].
  injection H as H. auto.
Qed.

Lemma append_inj_r (a b c : string) : a ++ c = b ++ c -> a = b.
Proof.
  revert b. induction a as [|x a IH]; intros [|y b] H; simpl in *.
  - reflexivity.
  - apply (f_equal String.length) in H. simpl in H.
    rewrite length_append in H. lia.
  - apply (f_equal String.length) in H. simpl in H.
    rewrite length_append in H. lia.
  - injection H as -> H. f_equal. auto.
Qed.

Lemma get_role_name_eq p rp fn :
  get_role_name p rp fn = "lmdo-" ++ p ++ "-" ++ py_str rp fn.
Proof.
  unfold get_role_name. cbn [format Ascii.eqb Bool.eqb append].
  now rewrite append_empty_r.
Qed.

(** X1: within one project, two specs with different function names
    never share a deployed function name, a role name or a package
    name. *)
Theorem names_are_injective (p : string) (rp : value -> string)
    (f g : string) :
  f <> g ->
  get_function_name p rp (VStr f) <> get_function_name p rp (VStr g)
  /\ get_role_name p rp (VStr f) <> get_role_name p rp (VStr g)
  /\ get_zip_name p rp (VStr f) <> get_zip_name p rp (VStr g).
Proof.
  intros Hfg. rewrite !get_function_name_eq, !get_role_name_eq,
    !get_zip_name_eq. cbn [py_str].
  repeat split; intros H; apply Hfg.
  - now apply append_inj_l, append_inj_l in H.
  - now apply append_inj_l, append_inj_l, append_inj_l in H.
  - apply append_inj_l, append_inj_l in H. now apply append_inj_r in H.
Qed.

Lemma names_are_injective_witness :
  get_function_name "demo" (fun _ => "<object>") (VStr "hello")
  <> get_function_name "demo" (fun _ => "<object>") (VStr "world")
  /\ get_role_name "demo" (fun _ => "<object>") (VStr "hello")
     <> get_role_name "demo" (fun _ => "<object>") (VStr "world")
  /\ get_zip_name "demo" (fun _ => "<object>") (VStr "hello")
     <> get_zip_name "demo" (fun _ => "<object>") (VStr "world").
Proof.
  apply (names_are_injective "demo" (fun _ => "<object>") "hello" "world").
  discriminate.
Defined.

(** X2: the separator between project id and function name is not
    escaped: the project [p-q] with the function [f] and the project [p]
    with the function [q-f] get the same deployed function name, role
    name and package name. *)
Theorem names_collide_across_projects (rp : value -> string)
    (p q f : string) :
  get_function_name (p ++ "-" ++ q) rp (VStr f)
  = get_function_name p rp (VStr (q ++ "-" ++ f))
  /\ get_role_name (p ++ "-" ++ q) rp (VStr f)
     = get_role_name p rp (VStr (q ++ "-" ++ f))
  /\ get_zip_name (p ++ "-" ++ q) rp (VStr f)
     = get_zip_name p rp (VStr (q ++ "-" ++ f)).
Proof.
  rewrite !get_function_name_eq, !get_role_name_eq, !get_zip_name_eq.
  cbn [py_str]. rewrite !append_assoc. cbn [append].
  repeat split; reflexivity.
Qed.

(** ** The resource name *)

(** X3: the resource name of a function is
    [arn:aws:lambda:<region>:<account>:function:<name>], where [<name>]
    is the deployed function name [<project>-<function>], the very name
    that [delete_function] and [invoke] send to the SDK. *)
Theorem arn_names_the_deployed_function (S : settings) (W : world)
    (region account f : value) (h : list event) :
  exists n,
    get_arn region account (name_id S) (repr_object S) f
    = "arn:aws:lambda:" ++ py_str (repr_object S) region ++ ":"
      ++ py_str (repr_object S) account ++ ":function:" ++ n
    /\ sent_names DeleteFunction (snd (delete_function S W f [] h))
       = [VStr n]
    /\ sent_names Invoke (snd (invoke S W f [] h)) = [VStr n]
    /\ n = name_id S ++ "-" ++ py_str (repr_object S) f.
Proof.
  exists (get_function_name (name_id S) (repr_object S) f).
  split; [|split; [|split]].
  - unfold get_arn. cbn [format Ascii.eqb Bool.eqb append].
    now rewrite append_empty_r.
  - change (wp (delete_function S W f []) h
              (fun _ t => sent_names DeleteFunction t
                          = [VStr (get_function_name (name_id S)
                                     (repr_object S) f)])).
    wp_auto; reflexivity.
  - change (wp (invoke S W f []) h
              (fun _ t => sent_names Invoke t
                          = [VStr (get_function_name (name_id S)
                                     (repr_object S) f)])).
    wp_auto; reflexivity.
  - apply get_function_name_eq.
Qed.

(** ** Keyword arguments *)

Lemma call_kwargs_ok (explicit kw sent : dict) :
  call_kwargs explicit kw = Ok sent -> sent = (explicit ++ kw)%list.
Proof.
  unfold call_kwargs.
  destruct (existsb _ _); [discriminate | now intros [= <-]].
Qed.

Lemma call_kwargs_clash (explicit kw : dict) (k : string) :
  In k (dict_keys explicit) -> In k (dict_keys kw) ->
  call_kwargs explicit kw
  = Raise (TypeError "got multiple values for keyword argument").
Proof.
  intros He Hk. unfold call_kwargs.
  replace (existsb _ (dict_keys kw)) with true; [reflexivity|].
  symmetry. apply existsb_exists. exists k. split; [assumption|].
  apply existsb_exists. exists k. split; [assumption|].
  apply String.eqb_refl.
Qed.

(** ** The existence probe *)

(** X4: when the existence probe [get_function] returns, it made
    exactly one SDK call, with [FunctionName] as given followed by the
    further keyword arguments, and its result is either the response of
    the SDK itself, whose [Configuration] is truthy, or [False], the
    response having a missing or falsy [Configuration]; it never gives
    back a response without configuration. *)
Theorem get_function_gives_response_or_False (W : world) (f : value)
    (kw : dict) (h : list event) (v : value) :
  fst (get_function W f kw h) = Ok v ->
  exists resp,
    snd (get_function W f kw h)
    = [Called (ClientCall GetFunction (("FunctionName", f) :: kw)) (Ok resp)]
    /\ ((v = resp /\ found_response resp = true)
        \/ (v = VBool false /\ absent_response resp = true)).
Proof.
  change (wp (get_function W f kw) h
            (fun r t =>
               r = Ok v ->
               exists resp,
                 t = [Called (ClientCall GetFunction
                                (("FunctionName", f) :: kw)) (Ok resp)]
                 /\ ((v = resp /\ found_response resp = true)
                     \/ (v = VBool false /\ absent_response resp = true)))).
  wp_auto.
  all: intros Hv; try discriminate Hv.
  injection Hv as <-.
  match goal with H : call_kwargs _ _ = Ok _ |- _ =>
    apply call_kwargs_ok in H; subst end.
  eexists. split; [reflexivity|].
  unfold found_response, absent_response.
  match goal with H : method_get _ _ = Ok _ |- _ => rewrite H end.
  destruct (truthy _); auto.
Qed.

Lemma get_function_gives_response_or_False_witness :
  exists resp,
    snd (get_function (Demo.service ["hello"] Demo.not_found)
           (VStr "hello") [] [])
    = [Called (ClientCall GetFunction [("FunctionName", VStr "hello")])
              (Ok resp)]
    /\ ((Demo.configuration "hello" = resp /\ found_response resp = true)
        \/ (Demo.configuration "hello" = VBool false
            /\ absent_response resp = true)).
Proof.
  apply (get_function_gives_response_or_False
           (Demo.service ["hello"] Demo.not_found) (VStr "hello") [] []
           (Demo.configuration "hello")).
  reflexivity.
Defined.

(** ** The remote-API wrappers, in any world and with any further
    keyword arguments *)

(** X5: whatever the collaborators answer and whatever arguments it
    gets, a wrapper makes at most one outside call, and that call goes
    to the SDK client of the Lambda service: no wrapper retries, and
    none touches storage, roles or files. *)
Theorem wrappers_call_the_sdk_at_most_once (S : settings) (W : world)
    (w : wrapper_call) (h : list event) :
  length (filter is_called (snd (run_wrapper S W w h))) <= 1
  /\ forallb is_sdk (filter is_called (snd (run_wrapper S W w h))) = true.
Proof.
  change (wp (run_wrapper S W w) h
            (fun _ t => length (filter is_called t) <= 1
                        /\ forallb is_sdk (filter is_called t) = true)).
  destruct w; unfold run_wrapper; wp_auto; cbn; split; (lia || reflexivity).
Qed.

(** X6: a wrapper that returns made exactly one SDK call, whose keyword
    arguments are the wrapper's own keywords followed by the further
    keyword arguments it was given, unchanged; the call succeeded, and
    the wrapper returns the response as it is, except that
    [get_function] returns [False] for a response without
    configuration. *)
Theorem wrapper_returns_the_response (S : settings) (W : world)
    (w : wrapper_call) (h : list event) (r : value) :
  fst (run_wrapper S W w h) = Ok r ->
  exists op own resp,
    filter is_called (snd (run_wrapper S W w h))
    = [Called (ClientCall op (own ++ further_keywords w)%list) (Ok resp)]
    /\ dict_keys own = own_keywords w
    /\ (r = resp
        \/ (exists f kw, w = Get_function f kw)
           /\ r = VBool false /\ absent_response resp = true).
Proof.
  change (wp (run_wrapper S W w) h
            (fun o t =>
               o = Ok r ->
               exists op own resp,
                 filter is_called t
                 = [Called (ClientCall op (own ++ further_keywords w)%list)
                           (Ok resp)]
                 /\ dict_keys own = own_keywords w
                 /\ (r = resp
                     \/ (exists f kw, w = Get_function f kw)
                        /\ r = VBool false /\ absent_response resp = true))).
  destruct w; unfold run_wrapper; wp_auto; intros Hr; try discriminate Hr;
    injection Hr as <-; cbn [filter is_called app further_keywords];
    repeat match goal with
      | H : call_kwargs _ _ = Ok _ |- _ => apply call_kwargs_ok in H; subst
      end.
  all: lazymatch goal with
       | |- exists _ _ _,
             [Called (ClientCall ?o (?own ++ ?k)%list) (Ok ?resp)] = _ /\ _ =>
           exists o, own, resp
       | |- exists _ _ _, [Called (ClientCall ?o ?own) (Ok ?resp)] = _ /\ _ =>
           exists o, own, resp; rewrite app_nil_r
       end;
    (split; [reflexivity|split; [reflexivity|]]).
  all: try (left; reflexivity).
  unfold absent_response.
  match goal with H : method_get _ _ = Ok _ |- _ => rewrite H end.
  destruct (truthy _); [left; reflexivity|right; eauto].
Qed.

Lemma wrapper_returns_the_response_witness :
  exists op own resp,
    filter is_called
      (snd (run_wrapper (Demo.project []) (Demo.service ["demo-hello"] Demo.not_found)
              (Delete_function (VStr "hello") [("Qualifier", VStr "1")]) []))
    = [Called (ClientCall op (own ++ [("Qualifier", VStr "1")])%list)
              (Ok resp)]
    /\ dict_keys own = ["FunctionName"]
    /\ (Demo.configuration "demo-hello" = resp
        \/ (exists f kw,
               Delete_function (VStr "hello") [("Qualifier", VStr "1")]
               = Get_function f kw)
           /\ Demo.configuration "demo-hello" = VBool false
           /\ absent_response resp = true).
Proof.
  apply (wrapper_returns_the_response (Demo.project [])
           (Demo.service ["demo-hello"] Demo.not_found)
           (Delete_function (VStr "hello") [("Qualifier", VStr "1")]) []
           (Demo.configuration "demo-hello")).
  reflexivity.
Defined.

(** X7: a further keyword argument that repeats one of the wrapper's
    own keywords (for instance [FunctionName] given to
    [delete_function]) makes the call of the SDK method a [TypeError]
    inside the [try] block: the SDK is not called, the error is logged,
    and the wrapper raises [UnboundLocalError]. *)
Theorem wrapper_keyword_given_twice (S : settings) (W : world)
    (w : wrapper_call) (h : list event) (k : string) :
  In k (own_keywords w) ->
  In k (dict_keys (further_keywords w)) ->
  run_wrapper S W w h
  = (Raise (UnboundLocalError "response"),
     [Printed Err (Exc (TypeError "got multiple values for keyword argument"))
              "lambda"]).
Proof.
  intros Hown Hkw.
  destruct w; cbn [further_keywords dict_keys map In] in Hkw;
    try contradiction;
    unfold run_wrapper, create_function, delete_function, invoke,
      get_function, try_response, client, try_except, bind, lift;
    rewrite (call_kwargs_clash _ kwargs k); try assumption; try reflexivity.
Qed.

Lemma wrapper_keyword_given_twice_witness :
  run_wrapper (Demo.project []) (Demo.service ["demo-hello"] Demo.not_found)
    (Delete_function (VStr "hello") [("FunctionName", VStr "other")]) []
  = (Raise (UnboundLocalError "response"),
     [Printed Err (Exc (TypeError "got multiple values for keyword argument"))
              "lambda"]).
Proof.
  apply (wrapper_keyword_given_twice (Demo.project [])
           (Demo.service ["demo-hello"] Demo.not_found)
           (Delete_function (VStr "hello") [("FunctionName", VStr "other")])
           [] "FunctionName"); simpl; left; reflexivity.
Defined.

(** ** Permissions *)

(** X8: when the SDK answers [add_permission] with a mapping, the
    wrapper returns that mapping whether or not it holds a [Statement];
    an error line is logged exactly when [Statement] is missing or
    [None]. *)
Theorem add_permission_without_statement (S : settings) (W : world)
    (f principal pid action : value) (h : list event) (c : call) (d : dict) :
  In (Called c (Ok (VDict d)))
     (snd (add_permission S W f principal pid action h)) ->
  fst (add_permission S W f principal pid action h) = Ok (VDict d)
  /\ existsb (fun ev => match ev with Printed Err _ _ => true | _ => false end)
             (snd (add_permission S W f principal pid action h))
     = is_none (dict_get "Statement" d).
Proof.
  change (wp (add_permission S W f principal pid action) h
            (fun r t =>
               In (Called c (Ok (VDict d))) t ->
               r = Ok (VDict d)
               /\ existsb (fun ev => match ev with
                                     | Printed Err _ _ => true
                                     | _ => false
                                     end) t
                  = is_none (dict_get "Statement" d))).
  wp_auto; cbn [In]; intros Hin;
    repeat match goal with
      | H : _ \/ _ |- _ => destruct H
      | H : False |- _ => destruct H
      | H : Called _ _ = Called _ _ |- _ => inversion H; subst; clear H
      | H : Printed _ _ _ = Called _ _ |- _ => discriminate H
      end;
    cbn [method_get] in *;
    repeat match goal with
      | H : Ok _ = Ok _ |- _ => inversion H; subst; clear H
      | H : Ok _ = Raise _ |- _ => discriminate H
      end;
    cbn [existsb orb]; split; congruence.
Qed.

Lemma add_permission_without_statement_witness :
  fst (add_permission (Demo.project []) (Demo.service [] Demo.not_found)
         (VStr "hello") (VStr "apigateway.amazonaws.com") (VStr "api")
         (VStr "lambda:InvokeFunction") [])
  = Ok (VDict [])
  /\ existsb (fun ev => match ev with Printed Err _ _ => true | _ => false end)
       (snd (add_permission (Demo.project []) (Demo.service [] Demo.not_found)
               (VStr "hello") (VStr "apigateway.amazonaws.com") (VStr "api")
               (VStr "lambda:InvokeFunction") []))
     = is_none (dict_get "Statement" []).
Proof.
  apply (add_permission_without_statement (Demo.project [])
           (Demo.service [] Demo.not_found)
           (VStr "hello") (VStr "apigateway.amazonaws.com") (VStr "api")
           (VStr "lambda:InvokeFunction") []
           (ClientCall AddPermission
              [("FunctionName", VStr "demo-hello");
               ("StatementId", VStr "stmt-demo-hello-api");
               ("Action", VStr "lambda:InvokeFunction");
               ("Principal", VStr "apigateway.amazonaws.com")])
           []).
  simpl. left. reflexivity.
Defined.

(** X9: [add_permission] and [remove_permission], called for the same
    function and principal id, send the same [StatementId] to the SDK:
    [stmt-<project>-<function>-<principal id>]. *)
Theorem permission_statement_round_trip (S : settings) (W : world)
    (f pid principal action : value) (h h' : list event) :
  sent_args "StatementId" AddPermission
    (snd (add_permission S W f principal pid action h))
  = [VStr (get_statement_id (name_id S) (repr_object S) f pid)]
  /\ sent_args "StatementId" RemovePermission
       (snd (remove_permission S W f pid h'))
     = sent_args "StatementId" AddPermission
         (snd (add_permission S W f principal pid action h))
  /\ get_statement_id (name_id S) (repr_object S) f pid
     = "stmt-" ++ name_id S ++ "-" ++ py_str (repr_object S) f ++ "-"
       ++ py_str (repr_object S) pid.
Proof.
  assert (Hadd : sent_args "StatementId" AddPermission
                   (snd (add_permission S W f principal pid action h))
                 = [VStr (get_statement_id (name_id S) (repr_object S) f pid)]).
  { change (wp (add_permission S W f principal pid action) h
              (fun _ t => sent_args "StatementId" AddPermission t
                          = [VStr (get_statement_id (name_id S)
                                     (repr_object S) f pid)])).
    wp_auto; reflexivity. }
  split; [exact Hadd|]. split.
  - rewrite Hadd.
    change (wp (remove_permission S W f pid) h'
              (fun _ t => sent_args "StatementId" RemovePermission t
                          = [VStr (get_statement_id (name_id S)
                                     (repr_object S) f pid)])).
    wp_auto; reflexivity.
  - unfold get_statement_id. rewrite get_function_name_eq.
    cbn [format Ascii.eqb Bool.eqb append].
    now rewrite append_empty_r, !append_assoc.
Qed.

(** ** The local artifact *)

(** X10: [zip_function] asks the packaging utility to write the
    directory [./] to [TMP_DIR + <project>-<function>.zip], with the
    configured exclusions, and this is the file that [remove_zip]
    removes; [zip_function] returns that path when the utility answers
    a truthy value and [False] otherwise, and lets an exception of the
    utility pass; [remove_zip] swallows an [OSError] and nothing
    else. *)
Theorem artifact_is_written_where_it_is_removed (S : settings) (W : world)
    (fn : value) (h h' : list event) :
  let target :=
    TMP_DIR S ++ name_id S ++ "-" ++ py_str (repr_object S) fn ++ ".zip" in
  exists z o,
    snd (zip_function S W fn h)
    = [Called (Zipper "./" target (LAMBDA_EXCLUDE S)) z]
    /\ snd (remove_zip S W fn h') = [Called (OsRemove target) o]
    /\ fst (zip_function S W fn h)
       = match z with
         | Ok v => Ok (if truthy v then VStr target else VBool false)
         | Raise e => Raise e
         end
    /\ fst (remove_zip S W fn h') = after_remove o.
Proof.
  intros target. subst target. rewrite <- get_zip_name_eq.
  unfold zip_function, remove_zip, try_except, bind, ask, ret.
  set (target := TMP_DIR S ++ get_zip_name (name_id S) (repr_object S) fn).
  exists (W h (Zipper "./" target (LAMBDA_EXCLUDE S))),
         (W h' (OsRemove target)).
  destruct (W h _) as [v|e]; destruct (W h' _) as [v'|e']; cbn;
    try destruct (truthy v); try destruct (is_OSError e');
    repeat split; reflexivity.
Qed.

(** ** Roles *)

(** X11: when [create_role] returns, it read the policy document, called
    the identity provider once with the given name and the text read,
    and it returns the [RoleName] found under [Role] in the answer. *)
Theorem create_role_returns_the_created_name (W : world)
    (name path : value) (h : list event) (r : value) :
  fst (create_role W name path h) = Ok r ->
  exists policy answer role,
    snd (create_role W name path h)
    = [Called (ReadFile path) (Ok policy);
       Called (IamCreateRole name policy) (Ok (VDict answer))]
    /\ dict_get "Role" answer = VDict role
    /\ r = dict_get "RoleName" role.
Proof.
  change (wp (create_role W name path) h
            (fun o t =>
               o = Ok r ->
               exists policy answer role,
                 t = [Called (ReadFile path) (Ok policy);
                      Called (IamCreateRole name policy) (Ok (VDict answer))]
                 /\ dict_get "Role" answer = VDict role
                 /\ r = dict_get "RoleName" role)).
  wp_auto; intros Hr; try discriminate Hr.
  repeat match goal with
    | H : method_get ?v _ = Ok _ |- _ =>
        destruct v; try discriminate H; cbn [method_get] in H;
        injection H as H
    end.
  subst. do 3 eexists. repeat split; eassumption || reflexivity.
Qed.

Lemma create_role_returns_the_created_name_witness :
  exists policy answer role,
    snd (create_role (Demo.service [] Demo.not_found)
           (VStr "lmdo-demo-hello") (VStr "policy.json") [])
    = [Called (ReadFile (VStr "policy.json")) (Ok policy);
       Called (IamCreateRole (VStr "lmdo-demo-hello") policy)
              (Ok (VDict answer))]
    /\ dict_get "Role" answer = VDict role
    /\ VStr "lmdo-demo-hello" = dict_get "RoleName" role.
Proof.
  apply (create_role_returns_the_created_name
           (Demo.service [] Demo.not_found)
           (VStr "lmdo-demo-hello") (VStr "policy.json") []
           (VStr "lmdo-demo-hello")).
  reflexivity.
Defined.

(** X12: [create_role] calls the identity provider only after the policy
    document was read, with the text read and the name given; a failure
    of the identity provider is not caught, and a falsy answer ([None],
    [False], an empty mapping) makes [create_role] raise
    [AttributeError]. *)
Theorem create_role_reads_the_document_first (W : world)
    (name path : value) (h : list event) (n p : value) (o : outcome value) :
  In (Called (IamCreateRole n p) o) (snd (create_role W name path h)) ->
  snd (create_role W name path h)
  = [Called (ReadFile path) (Ok p); Called (IamCreateRole name p) o]
  /\ n = name
  /\ (forall e, o = Raise e -> fst (create_role W name path h) = Raise e)
  /\ (forall v, o = Ok v -> truthy v = false ->
                exists ty, fst (create_role W name path h)
                           = Raise (AttributeError ty "get")).
Proof.
  change (wp (create_role W name path) h
            (fun r t =>
               In (Called (IamCreateRole n p) o) t ->
               t = [Called (ReadFile path) (Ok p);
                    Called (IamCreateRole name p) o]
               /\ n = name
               /\ (forall e, o = Raise e -> r = Raise e)
               /\ (forall v, o = Ok v -> truthy v = false ->
                             exists ty,
                               r = Raise (AttributeError ty "get")))).
  wp_auto; cbn [In]; intros Hin;
    repeat match goal with
      | H : _ \/ _ |- _ => destruct H
      | H : False |- _ => destruct H
      | H : Called _ _ = Called _ _ |- _ => inversion H; subst; clear H
      end.
  all: repeat split; try congruence.
  all: intros v Hv Hfalsy; injection Hv as <-.
  all: repeat match goal with
       | H : method_get ?x _ = _ |- _ =>
           destruct x as [| | | |l|[|kv d]|]; try discriminate Hfalsy;
           cbn [method_get type_name dict_get dict_lookup] in H;
           try (injection H as H; subst)
       end.
  all: try discriminate.
  all: eexists; reflexivity.
Qed.

Lemma create_role_reads_the_document_first_witness :
  snd (create_role (Demo.service [] Demo.not_found)
         (VStr "lmdo-demo-hello") (VStr "policy.json") [])
  = [Called (ReadFile (VStr "policy.json")) (Ok (VStr "{}"));
     Called (IamCreateRole (VStr "lmdo-demo-hello") (VStr "{}"))
            (Ok (VDict [("Role",
                         VDict [("RoleName", VStr "lmdo-demo-hello")])]))]
  /\ VStr "lmdo-demo-hello" = VStr "lmdo-demo-hello"
  /\ (forall e,
         Ok (VDict [("Role", VDict [("RoleName", VStr "lmdo-demo-hello")])])
         = Raise e ->
         fst (create_role (Demo.service [] Demo.not_found)
                (VStr "lmdo-demo-hello") (VStr "policy.json") [])
         = Raise e)
  /\ (forall v,
         Ok (VDict [("Role", VDict [("RoleName", VStr "lmdo-demo-hello")])])
         = Ok v ->
         truthy v = false ->
         exists ty,
           fst (create_role (Demo.service [] Demo.not_found)
                  (VStr "lmdo-demo-hello") (VStr "policy.json") [])
           = Raise (AttributeError ty "get")).
Proof.
  apply (create_role_reads_the_document_first
           (Demo.service [] Demo.not_found)
           (VStr "lmdo-demo-hello") (VStr "policy.json") []
           (VStr "lmdo-demo-hello") (VStr "{}")
           (Ok (VDict [("Role",
                        VDict [("RoleName", VStr "lmdo-demo-hello")])]))).
  simpl. right. left. reflexivity.
Defined.

(** ** What the passes do and never do *)

Lemma delete_forall (S : settings) (W : world) (P : event -> Prop) :
  (forall lm h, Forall P (snd (delete_one S W lm h))) ->
  (forall msg, P (Printed Info (Msg msg) "lambda")) ->
  forall h, Forall P (snd (delete S W h)).
Proof.
  intros Hone Hmsg h. unfold delete.
  destruct (truthy (dict_get "Lambda" (_config S))); cbn [negb].
  - unfold bind, lift.
    destruct (py_iter (dict_get "Lambda" (_config S))) as [specs|e];
      [|constructor].
    pose proof (for_each_forall P (delete_one S W) (Hone) specs
                  (h ++ [])%list) as H.
    destruct (for_each (delete_one S W) specs (h ++ [])%list)
      as [[[]|e] t]; cbn in *.
    + now rewrite app_nil_r.
    + assumption.
  - repeat constructor. apply Hmsg.
Qed.

(** X13: a deploy pass only removes and packages the artifact, uploads
    it, probes the function, updates its code, reads a policy document
    and creates a role; it never deletes a function or a role, never
    invokes, lists or changes permissions.  A destroy pass only probes,
    deletes functions and deletes roles; it never packages, uploads,
    creates or updates.  Both log under the tag [lambda] only. *)
Theorem passes_keep_to_their_steps (S : settings) (W : world)
    (h : list event) :
  forallb deploy_step (snd (process S W h)) = true
  /\ forallb destroy_step (snd (delete S W h)) = true.
Proof.
  split; apply forallb_forall, Forall_forall.
  - apply process_forall; [|reflexivity].
    intros lm h0.
    change (wp (process_one S W lm) h0
              (fun _ t => Forall (fun ev => deploy_step ev = true) t)).
    unfold process_one. destruct lm; wp_auto; repeat constructor.
  - apply delete_forall; [|reflexivity].
    intros lm h0.
    change (wp (delete_one S W lm) h0
              (fun _ t => Forall (fun ev => destroy_step ev = true) t)).
    unfold delete_one. destruct lm; wp_auto; repeat constructor.
Qed.

(** ** The deploy of one spec *)

(** X14: when the upload of the artifact of a spec gives a falsy result,
    the deploy of the spec is: removal, packaging, the upload, removal;
    the Lambda service is not called, and the outcome is that of the
    last removal. *)
Theorem upload_failure_skips_the_service (S : settings) (W : world)
    (d : dict) (h : list event) :
  upload_failed (snd (process_one S W (VDict d) h)) = true ->
  let fn := dict_get "FunctionName" d in
  let target := TMP_DIR S ++ get_zip_name (name_id S) (repr_object S) fn in
  exists o1 z u o2,
    snd (process_one S W (VDict d) h)
    = [Called (OsRemove target) o1;
       Called (Zipper "./" target (LAMBDA_EXCLUDE S)) (Ok z);
       Called (S3UploadFile (dict_get "S3Bucket" d) (VMethod "get_zip_name")
                            (VStr target)) (Ok u);
       Called (OsRemove target) o2]
    /\ truthy z = true /\ truthy u = false
    /\ fst (process_one S W (VDict d) h) = after_remove o2.
Proof.
  cbv zeta.
  change (wp (process_one S W (VDict d)) h
            (fun r t =>
               upload_failed t = true ->
               exists o1 z u o2,
                 t = [Called (OsRemove (TMP_DIR S
                                ++ get_zip_name (name_id S) (repr_object S)
                                     (dict_get "FunctionName" d))) o1;
                      Called (Zipper "./"
                                (TMP_DIR S
                                 ++ get_zip_name (name_id S) (repr_object S)
                                      (dict_get "FunctionName" d))
                                (LAMBDA_EXCLUDE S)) (Ok z);
                      Called (S3UploadFile (dict_get "S3Bucket" d)
                                (VMethod "get_zip_name")
                                (VStr (TMP_DIR S
                                       ++ get_zip_name (name_id S)
                                            (repr_object S)
                                            (dict_get "FunctionName" d))))
                             (Ok u);
                      Called (OsRemove (TMP_DIR S
                                ++ get_zip_name (name_id S) (repr_object S)
                                     (dict_get "FunctionName" d))) o2]
                 /\ truthy z = true /\ truthy u = false
                 /\ r = after_remove o2)).
  unfold process_one. wp_auto; unfold upload_failed; cbn [existsb orb negb];
    intros Hfail;
    repeat match goal with
      | H : truthy ?z = true |- _ => rewrite H in Hfail
      end;
    try discriminate Hfail.
  all: cbn [negb orb] in Hfail; try discriminate Hfail.
  do 4 eexists. repeat split; eauto.
Qed.

Lemma upload_failure_skips_the_service_witness :
  exists o1 z u o2,
    snd (process_one (Demo.project [Demo.hello_with_role]) (no_upload [])
           Demo.hello_with_role [])
    = [Called (OsRemove "/tmp/lmdo/demo-hello.zip") o1;
       Called (Zipper "./" "/tmp/lmdo/demo-hello.zip" (VList [])) (Ok z);
       Called (S3UploadFile (VStr "artifacts") (VMethod "get_zip_name")
                            (VStr "/tmp/lmdo/demo-hello.zip")) (Ok u);
       Called (OsRemove "/tmp/lmdo/demo-hello.zip") o2]
    /\ truthy z = true /\ truthy u = false
    /\ fst (process_one (Demo.project [Demo.hello_with_role]) (no_upload [])
              Demo.hello_with_role [])
       = after_remove o2.
Proof.
  apply (upload_failure_skips_the_service
           (Demo.project [Demo.hello_with_role]) (no_upload [])
           [("FunctionName", VStr "hello");
            ("S3Bucket", VStr "artifacts");
            ("Handler", VStr "handler.main");
            ("Role", VStr "arn:aws:iam::1:role/given")] []).
  reflexivity.
Defined.

(** X15: a deploy of a spec that completes without exception is one of
    three runs, each between two removals of the artifact: packaging
    failed; or the upload failed; or the artifact was packaged and
    uploaded, the probe found the function, and its code was updated
    from the spec's bucket under the key [<project>-<function>.zip].
    In particular no deploy that has to create the function
    completes. *)
Theorem completed_deploy_updated_or_skipped (S : settings) (W : world)
    (d : dict) (h : list event) :
  fst (process_one S W (VDict d) h) = Ok tt ->
  let fn := dict_get "FunctionName" d in
  let bucket := dict_get "S3Bucket" d in
  let target := TMP_DIR S ++ get_zip_name (name_id S) (repr_object S) fn in
  let upload := S3UploadFile bucket (VMethod "get_zip_name") (VStr target) in
  let probe := ClientCall GetFunction [("FunctionName", fn)] in
  let update :=
    ClientCall UpdateFunctionCode
      [("FunctionName",
        VStr (get_function_name (name_id S) (repr_object S) fn));
       ("S3Bucket", bucket);
       ("S3Key", VStr (get_zip_name (name_id S) (repr_object S) fn))] in
  exists o1 z o2 middle,
    snd (process_one S W (VDict d) h)
    = (Called (OsRemove target) o1
       :: Called (Zipper "./" target (LAMBDA_EXCLUDE S)) (Ok z)
       :: middle ++ [Called (OsRemove target) o2])%list
    /\ (middle = [] /\ truthy z = false
        \/ (exists u,
               middle = [Called upload (Ok u)]
               /\ truthy z = true /\ truthy u = false)
        \/ (exists u resp r,
               middle
               = [Called upload (Ok u);
                  Called probe (Ok resp);
                  Called update (Ok r);
                  Printed Info
                    (Msg (format "Lambda function {} has been updated"
                                 [py_str (repr_object S) fn])) "lambda"]
               /\ truthy z = true /\ truthy u = true
               /\ found_response resp = true)).
Proof.
  cbv zeta.
  match goal with
  | |- _ -> exists o1 z o2 middle, _ = @?t o1 z o2 middle /\ @?Q z middle =>
      change (wp (process_one S W (VDict d)) h
                (fun r tr =>
                   r = Ok tt ->
                   exists o1 z o2 middle,
                     tr = t o1 z o2 middle /\ Q z middle))
  end.
  unfold process_one. wp_auto; intros Hok; try discriminate Hok; cbv beta.
  all: lazymatch goal with
       | |- exists o1 z o2 middle,
             (Called _ ?a :: Called _ (Ok ?b) :: ?rest) = _ /\ _ =>
           let rec split_last l :=
             lazymatch l with
             | [Called _ ?x] => constr:((@nil event, x))
             | ?e :: ?l' =>
                 let r := split_last l' in
                 lazymatch r with
                 | (?m, ?x) => constr:((e :: m, x))
                 end
             end in
           let r := split_last rest in
           lazymatch r with
           | (?m, ?x) => exists a, b, x, m
           end
       end.
  all: split; [reflexivity|].
  all: first [ left; split; [reflexivity|assumption]
             | right; left; eexists; repeat split; eauto; fail
             | right; right; do 3 eexists; repeat split; eauto; fail ].
Qed.

Lemma completed_deploy_updated_or_skipped_witness :
  exists o1 z o2 middle,
    snd (process_one (Demo.project [Demo.hello_with_role])
           (Demo.service ["hello"; "demo-hello"] Demo.not_found)
           Demo.hello_with_role [])
    = (Called (OsRemove "/tmp/lmdo/demo-hello.zip") o1
       :: Called (Zipper "./" "/tmp/lmdo/demo-hello.zip" (VList [])) (Ok z)
       :: middle ++ [Called (OsRemove "/tmp/lmdo/demo-hello.zip") o2])%list
    /\ (middle = [] /\ truthy z = false
        \/ (exists u,
               middle
               = [Called (S3UploadFile (VStr "artifacts")
                            (VMethod "get_zip_name")
                            (VStr "/tmp/lmdo/demo-hello.zip")) (Ok u)]
               /\ truthy z = true /\ truthy u = false)
        \/ (exists u resp r,
               middle
               = [Called (S3UploadFile (VStr "artifacts")
                            (VMethod "get_zip_name")
                            (VStr "/tmp/lmdo/demo-hello.zip")) (Ok u);
                  Called (ClientCall GetFunction
                            [("FunctionName", VStr "hello")]) (Ok resp);
                  Called (ClientCall UpdateFunctionCode
                            [("FunctionName", VStr "demo-hello");
                             ("S3Bucket", VStr "artifacts");
                             ("S3Key", VStr "demo-hello.zip")]) (Ok r);
                  Printed Info (Msg "Lambda function hello has been updated")
                          "lambda"]
               /\ truthy z = true /\ truthy u = true
               /\ found_response resp = true)).
Proof.
  apply (completed_deploy_updated_or_skipped
           (Demo.project [Demo.hello_with_role])
           (Demo.service ["hello"; "demo-hello"] Demo.not_found)
           [("FunctionName", VStr "hello");
            ("S3Bucket", VStr "artifacts");
            ("Handler", VStr "handler.main");
            ("Role", VStr "arn:aws:iam::1:role/given")] []).
  reflexivity.
Defined.

(** ** The destroy of one spec *)

(** X16: a destroy of a spec that completes without exception probed the
    function under the name of the spec, deleted it under the deployed
    name [<project>-<function>], and then, when the spec names no role,
    deleted the role recorded in the [Configuration] of the probed
    response; when the spec names a role, nothing follows the
    deletion. *)
Theorem completed_destroy (S : settings) (W : world)
    (d : dict) (h : list event) :
  fst (delete_one S W (VDict d) h) = Ok tt ->
  let fn := dict_get "FunctionName" d in
  let name := get_function_name (name_id S) (repr_object S) fn in
  exists resp r roles,
    snd (delete_one S W (VDict d) h)
    = ([Called (ClientCall GetFunction [("FunctionName", fn)]) (Ok resp);
        Called (ClientCall DeleteFunction [("FunctionName", VStr name)])
               (Ok r);
        Printed Info
          (Msg (format "Lambda function {} has been deleted" [name]))
          "lambda"] ++ roles)%list
    /\ (truthy (dict_get "Role" d) = true /\ roles = []
        \/ truthy (dict_get "Role" d) = false
           /\ exists conf x,
                method_get resp "Configuration" = Ok (VDict conf)
                /\ conf <> []
                /\ roles
                   = [Called (IamDeleteRole (dict_get "Role" conf)) (Ok x)]).
Proof.
  cbv zeta.
  match goal with
  | |- _ -> exists resp r roles, _ = @?t resp r roles /\ @?Q resp roles =>
      change (wp (delete_one S W (VDict d)) h
                (fun o tr =>
                   o = Ok tt ->
                   exists resp r roles,
                     tr = t resp r roles /\ Q resp roles))
  end.
  unfold delete_one. wp_auto; intros Hok; try discriminate Hok; cbv beta.
  all: repeat match goal with
         | H : negb _ = true |- _ => apply negb_true_iff in H
         | H : negb _ = false |- _ => apply negb_false_iff in H
         end.
  all: do 3 eexists; (split; [reflexivity|]).
  all: try (left; split; [assumption|reflexivity]).
  right. split; [assumption|].
  match goal with
  | H : method_get ?a "Role" = Ok _ |- _ =>
      destruct a as [| | | | |conf|]; try discriminate H;
      cbn [method_get] in H; injection H as <-
  end.
  exists conf. eexists. split; [eassumption|]. split; [|reflexivity].
  unfold found_response in *.
  match goal with
  | H : method_get _ "Configuration" = _, H' : match _ with _ => _ end = true
    |- _ => rewrite H in H'; intros ->; discriminate H'
  end.
Qed.

Lemma completed_destroy_witness :
  exists resp r roles,
    snd (delete_one (Demo.project [Demo.hello_no_role])
           (Demo.service ["hello"; "demo-hello"] Demo.not_found)
           Demo.hello_no_role [])
    = ([Called (ClientCall GetFunction [("FunctionName", VStr "hello")])
               (Ok resp);
        Called (ClientCall DeleteFunction
                  [("FunctionName", VStr "demo-hello")]) (Ok r);
        Printed Info (Msg "Lambda function demo-hello has been deleted")
                "lambda"] ++ roles)%list
    /\ (truthy VNone = true /\ roles = []
        \/ truthy VNone = false
           /\ exists conf x,
                method_get resp "Configuration" = Ok (VDict conf)
                /\ conf <> []
                /\ roles
                   = [Called (IamDeleteRole (dict_get "Role" conf)) (Ok x)]).
Proof.
  apply (completed_destroy (Demo.project [Demo.hello_no_role])
           (Demo.service ["hello"; "demo-hello"] Demo.not_found)
           [("FunctionName", VStr "hello");
            ("S3Bucket", VStr "artifacts");
            ("Handler", VStr "handler.main");
            ("RolePolicyDocument", VStr "policy.json")] []).
  reflexivity.
Defined.

(** ** Passes over several specs *)

(** X17: a deploy pass ends at the first spec whose deploy raises: the
    pass raises the same exception, and the specs after it add nothing
    to the trace. *)
Theorem deploy_pass_stops_at_first_failure (S : settings) (W : world)
    (h : list event) (pre : list value) (lm : value) (post : list value)
    (e : exn) :
  dict_get "Lambda" (_config S) = VList (pre ++ lm :: post) ->
  fst (for_each (process_one S W) pre h) = Ok tt ->
  fst (process_one S W lm (h ++ snd (for_each (process_one S W) pre h))%list)
  = Raise e ->
  process S W h
  = (Raise e,
     (snd (for_each (process_one S W) pre h)
      ++ snd (process_one S W lm
                (h ++ snd (for_each (process_one S W) pre h))))%list).
Proof.
  intros Hcfg Hpre Hlm. unfold process. rewrite Hcfg.
  replace (truthy (VList (pre ++ lm :: post))) with true
    by (destruct pre; reflexivity).
  cbn [negb py_iter]. unfold bind at 1. unfold lift. rewrite app_nil_r.
  unfold bind. rewrite (for_each_stops _ _ _ _ _ _ Hpre Hlm). reflexivity.
Qed.

Lemma deploy_pass_stops_at_first_failure_witness :
  process (Demo.project [Demo.hello_no_role; Demo.hello_with_role])
          (Demo.service [] Demo.not_found) []
  = (Raise (UnboundLocalError "response"),
     (snd (for_each (process_one
                       (Demo.project [Demo.hello_no_role;
                                      Demo.hello_with_role])
                       (Demo.service [] Demo.not_found)) [] [])
      ++ snd (process_one
                (Demo.project [Demo.hello_no_role; Demo.hello_with_role])
                (Demo.service [] Demo.not_found) Demo.hello_no_role
                ([] ++ snd (for_each
                              (process_one
                                 (Demo.project [Demo.hello_no_role;
                                                Demo.hello_with_role])
                                 (Demo.service [] Demo.not_found)) [] []))))%list).
Proof.
  apply (deploy_pass_stops_at_first_failure
           (Demo.project [Demo.hello_no_role; Demo.hello_with_role])
           (Demo.service [] Demo.not_found) []
           [] Demo.hello_no_role [Demo.hello_with_role]
           (UnboundLocalError "response")); reflexivity.
Defined.

(** X18: a destroy pass ends at the first spec whose destroy raises: the
    pass raises the same exception, and the specs after it are neither
    probed nor deleted. *)
Theorem destroy_pass_stops_at_first_failure (S : settings) (W : world)
    (h : list event) (pre : list value) (lm : value) (post : list value)
    (e : exn) :
  dict_get "Lambda" (_config S) = VList (pre ++ lm :: post) ->
  fst (for_each (delete_one S W) pre h) = Ok tt ->
  fst (delete_one S W lm (h ++ snd (for_each (delete_one S W) pre h))%list)
  = Raise e ->
  delete S W h
  = (Raise e,
     (snd (for_each (delete_one S W) pre h)
      ++ snd (delete_one S W lm
                (h ++ snd (for_each (delete_one S W) pre h))))%list).
Proof.
  intros Hcfg Hpre Hlm. unfold delete. rewrite Hcfg.
  replace (truthy (VList (pre ++ lm :: post))) with true
    by (destruct pre; reflexivity).
  cbn [negb py_iter]. unfold bind at 1. unfold lift. rewrite app_nil_r.
  unfold bind. rewrite (for_each_stops _ _ _ _ _ _ Hpre Hlm). reflexivity.
Qed.

Lemma destroy_pass_stops_at_first_failure_witness :
  delete (Demo.project [Demo.hello_no_role; Demo.hello_with_role])
         (Demo.service ["demo-hello"] Demo.empty_response) []
  = (Raise (AttributeError "bool" "get"),
     (snd (for_each (delete_one
                       (Demo.project [Demo.hello_no_role;
                                      Demo.hello_with_role])
                       (Demo.service ["demo-hello"] Demo.empty_response)) [] [])
      ++ snd (delete_one
                (Demo.project [Demo.hello_no_role; Demo.hello_with_role])
                (Demo.service ["demo-hello"] Demo.empty_response) Demo.hello_no_role
                ([] ++ snd (for_each
                              (delete_one
                                 (Demo.project [Demo.hello_no_role;
                                                Demo.hello_with_role])
                                 (Demo.service ["demo-hello"] Demo.empty_response))
                              [] []))))%list).
Proof.
  apply (destroy_pass_stops_at_first_failure
           (Demo.project [Demo.hello_no_role; Demo.hello_with_role])
           (Demo.service ["demo-hello"] Demo.empty_response) []
           [] Demo.hello_no_role [Demo.hello_with_role]
           (AttributeError "bool" "get")); reflexivity.
Defined.

(** ** Configurations of the wrong shape *)

(** X19: a [Lambda] entry of the configuration that is truthy but not a
    list makes both passes raise before any outside call: a mapping or
    a string is iterated by keys or characters, on which [.get] is an
    [AttributeError]; a number, [True] or any other object is a
    [TypeError], not being iterable. *)
Theorem lambda_entry_must_be_a_list (S : settings) (W : world)
    (h : list event) :
  let lambdas := dict_get "Lambda" (_config S) in
  truthy lambdas = true ->
  (forall l, lambdas <> VList l) ->
  let e :=
    match lambdas with
    | VStr _ | VDict _ => AttributeError "str" "get"
    | v => TypeError ("'" ++ type_name v ++ "' object is not iterable")
    end in
  process S W h = (Raise e, []) /\ delete S W h = (Raise e, []).
Proof.
  cbv zeta. intros Ht Hl. unfold process, delete. rewrite Ht. cbn [negb].
  destruct (dict_get "Lambda" (_config S)) as [|b|z|s|l|d|m];
    try discriminate Ht; try (now elim (Hl l)).
  - split; reflexivity.
  - split; reflexivity.
  - destruct s; [discriminate Ht|]. split; reflexivity.
  - destruct d as [|[k v] d]; [discriminate Ht|]. split; reflexivity.
  - split; reflexivity.
Qed.

Lemma lambda_entry_must_be_a_list_witness :
  process (Demo.settings_of [("Lambda", VDict [("FunctionName", VStr "hello")])])
          (Demo.service [] Demo.not_found) []
  = (Raise (AttributeError "str" "get"), [])
  /\ delete (Demo.settings_of
               [("Lambda", VDict [("FunctionName", VStr "hello")])])
            (Demo.service [] Demo.not_found) []
     = (Raise (AttributeError "str" "get"), []).
Proof.
  apply (lambda_entry_must_be_a_list
           (Demo.settings_of
              [("Lambda", VDict [("FunctionName", VStr "hello")])])
           (Demo.service [] Demo.not_found) []).
  - reflexivity.
  - intros l. discriminate.
Defined.

(** ** The entry points *)

(** X20: [pip_install] reads the module-level name
    [PIP_REQUIREMENTS_FILE], which the module never binds: it raises
    [NameError] before it does anything, whatever the rest of it would
    do, and so do [create] and [update], which start with it; the
    deploy pass [process] is never reached through them and nothing
    leaves the module. *)
Theorem create_never_reaches_the_deploy_pass (S : settings) (W : world)
    (install_requirements : value -> M unit) (h : list event) :
  let e :=
    OtherError "NameError"
               "global name 'PIP_REQUIREMENTS_FILE' is not defined" in
  pip_install S install_requirements h = (Raise e, [])
  /\ create S W install_requirements h = (Raise e, [])
  /\ update S W install_requirements h = (Raise e, []).
Proof. repeat split; reflexivity. Qed.

(** X21: whenever the deploy of a spec creates a role, the spec names no
    role, the probe answered that the function is absent, the role is
    named [lmdo-<project>-<function>], and its policy is the text read
    from the file that the spec gives as [RolePolicyDocument]. *)
Theorem deploy_creates_the_role_from_the_document (S : settings) (W : world)
    (d : dict) (h : list event) (n p : value) (o : outcome value) :
  In (Called (IamCreateRole n p) o) (snd (process_one S W (VDict d) h)) ->
  n = VStr (get_role_name (name_id S) (repr_object S)
              (dict_get "FunctionName" d))
  /\ In (Called (ReadFile (dict_get "RolePolicyDocument" d)) (Ok p))
        (snd (process_one S W (VDict d) h))
  /\ truthy (dict_get "Role" d) = false
  /\ probe_absent (snd (process_one S W (VDict d) h)) = true.
Proof.
  change (wp (process_one S W (VDict d)) h
            (fun _ t =>
               In (Called (IamCreateRole n p) o) t ->
               n = VStr (get_role_name (name_id S) (repr_object S)
                           (dict_get "FunctionName" d))
               /\ In (Called (ReadFile (dict_get "RolePolicyDocument" d))
                             (Ok p)) t
               /\ truthy (dict_get "Role" d) = false
               /\ probe_absent t = true)).
  unfold process_one. wp_auto; cbn [In]; intros Hin;
    repeat match goal with
      | H : _ \/ _ |- _ => destruct H
      | H : False |- _ => destruct H
      | H : Called _ _ = Called _ _ |- _ => inversion H; subst; clear H
      | H : Printed _ _ _ = Called _ _ |- _ => discriminate H
      end.
  all: observe; probe_facts; cbn [orb];
    repeat split; try reflexivity; try assumption.
  all: auto 10.
Qed.

Lemma deploy_creates_the_role_from_the_document_witness :
  VStr "lmdo-demo-hello"
  = VStr (get_role_name "demo" (fun _ => "<object>") (VStr "hello"))
  /\ In (Called (ReadFile (VStr "policy.json")) (Ok (VStr "{}")))
        (snd (process_one (Demo.project [Demo.hello_no_role])
                (Demo.service [] Demo.empty_response)
                Demo.hello_no_role []))
  /\ truthy VNone = false
  /\ probe_absent
       (snd (process_one (Demo.project [Demo.hello_no_role])
               (Demo.service [] Demo.empty_response)
               Demo.hello_no_role []))
     = true.
Proof.
  apply (deploy_creates_the_role_from_the_document
           (Demo.project [Demo.hello_no_role])
           (Demo.service [] Demo.empty_response)
           [("FunctionName", VStr "hello");
            ("S3Bucket", VStr "artifacts");
            ("Handler", VStr "handler.main");
            ("RolePolicyDocument", VStr "policy.json")] []
           (VStr "lmdo-demo-hello") (VStr "{}")
           (Ok (VDict [("Role",
                        VDict [("RoleName", VStr "lmdo-demo-hello")])]))).
  vm_compute. do 5 right. left. reflexivity.
Defined.
